(** * jello: the schema flattener and the JSON output formatter

    A shallow embedding of [Schema.create_schema] / [Schema._schema_gen] and
    [Json.create_json] of [jello/lib.py], with the pieces of the Python
    runtime they call ([str.replace], [str.isdigit], [str.rstrip], [repr],
    [json.dumps]); further down, of [JelloTheme.set_colors], of the option
    checks of [pyquery] and of [load_json] ([json.loads] being a parameter).

    Conventions of the model:
    - a Python [str] is a [string] whose characters are the code points
      U+0000 .. U+00FF (one [ascii] per code point), so [len] is [length];
    - a Python [float] is given by the text [float.__repr__] prints for it
      (binary floating point itself is not modelled);
    - a [dict] is its list of items in insertion order, keys being [str]
      (what [json.loads] and [DotMap.toDict] produce);
    - an object that the JSON encoder rejects (a set, bytes, ...) is
      [PForeign], carrying its type name and its [repr]; tuples, which the
      encoder prints as arrays, are left out;
    - the option flags of class [opts] are read for their truth value only
      ([None] counts as [False]). *)

From Stdlib Require Import Bool Arith ZArith NArith Lia List.
From Stdlib Require Import Strings.Ascii Strings.String Numbers.DecimalString.
Import ListNotations.
Open Scope string_scope.

(** ** Characters and Python string methods *)

Definition code (c : ascii) : N := N_of_ascii c.

Definition LF : ascii := "010"%char.
Definition DQUOTE : ascii := "034"%char.
Definition SQUOTE : ascii := "039"%char.
Definition BACKSLASH : ascii := "092"%char.

(** [len(s)] *)
Definition len (s : string) : nat := String.length s.

Definition chr (c : ascii) : string := String c EmptyString.

(** [' ' * n] *)
Fixpoint spaces (n : nat) : string :=
  match n with
  | O => EmptyString
  | S k => String " " (spaces k)
  end.

Definition str_forall (p : ascii -> bool) (s : string) : bool :=
  forallb p (list_ascii_of_string s).

Definition str_exists (p : ascii -> bool) (s : string) : bool :=
  existsb p (list_ascii_of_string s).

(** [str.replace(old, new, count)] for a one-character [old]; [count = None]
    replaces every occurrence. *)
Fixpoint str_replace (old : ascii) (new : string) (count : option nat)
    (s : string) : string :=
  match s with
  | EmptyString => EmptyString
  | String c r =>
      match count with
      | Some O => s
      | _ =>
          if Ascii.eqb c old
          then new ++ str_replace old new (option_map Nat.pred count) r
          else String c (str_replace old new count r)
      end
  end.

(** Characters with the Unicode property Numeric_Type = Digit or Decimal
    below U+0100: 0-9 and the superscripts two, three and one. *)
Definition is_digit_char (c : ascii) : bool :=
  let n := code c in
  ((48 <=? n) && (n <=? 57) || (n =? 178) || (n =? 179) || (n =? 185))%N.

(** [str.isdigit()]: at least one character, all of them digits. *)
Definition isdigit (s : string) : bool :=
  match s with
  | EmptyString => false
  | _ => str_forall is_digit_char s
  end.

(** [str.isspace()] on one character below U+0100. *)
Definition is_space_char (c : ascii) : bool :=
  let n := code c in
  ((9 <=? n) && (n <=? 13) || (28 <=? n) && (n <=? 32)
   || (n =? 133) || (n =? 160))%N.

(** [str.rstrip()] *)
Fixpoint rstrip (s : string) : string :=
  match s with
  | EmptyString => EmptyString
  | String c r =>
      match rstrip r with
      | EmptyString => if is_space_char c then EmptyString else chr c
      | r' => String c r'
      end
  end.

(** ['sep'.join(l)] *)
Fixpoint join (sep : string) (l : list string) : string :=
  match l with
  | [] => EmptyString
  | [x] => x
  | x :: r => x ++ sep ++ join sep r
  end.

(** [str(i)] for a non-negative index and for an [int]. *)
Definition str_of_nat (i : nat) : string :=
  NilZero.string_of_uint (Nat.to_uint i).

Definition str_of_int (z : Z) : string :=
  NilZero.string_of_int (Z.to_int z).

Definition hex_digit (n : N) : ascii :=
  if (n <? 10)%N then ascii_of_N (48 + n) else ascii_of_N (87 + n).

(** ['{0:02x}'.format(n)] for [n < 256] *)
Definition hex2 (n : N) : string :=
  String (hex_digit (n / 16)) (String (hex_digit (n mod 16)) EmptyString).

(** ** Values *)

Scheme All for list.
Scheme All for prod.

Inductive pyfloat : Type :=
  | FNan
  | FInf
  | FNegInf
  | FFinite (repr : string).

Inductive value : Type :=
  | PNone
  | PBool (b : bool)
  | PInt (z : Z)
  | PFloat (f : pyfloat)
  | PStr (s : string)
  | PList (items : list value)
  | PDict (items : list (string * value))
  | PForeign (type_name repr : string).

Inductive pyexc : Type :=
  | TypeError (msg : string)
  | ValueError (msg : string).

Inductive outcome (A : Type) : Type :=
  | Return (a : A)
  | Raise (e : pyexc).
Arguments Return {A} a.
Arguments Raise {A} e.

Definition obind {A B} (m : outcome A) (k : A -> outcome B) : outcome B :=
  match m with
  | Return a => k a
  | Raise e => Raise e
  end.

Notation "x <- m ;; k" := (obind m (fun x => k))
  (at level 61, m at next level, right associativity).

(** ** [repr] and [str] of a value (used for array paths) *)

Definition is_printable (c : ascii) : bool :=
  let n := code c in
  ((32 <=? n) && (n <? 127) || (161 <=? n) && negb (n =? 173))%N.

Definition repr_char (quote : ascii) (c : ascii) : string :=
  if Ascii.eqb c quote || Ascii.eqb c BACKSLASH then String BACKSLASH (chr c)
  else if Ascii.eqb c "009" then String BACKSLASH "t"
  else if Ascii.eqb c LF then String BACKSLASH "n"
  else if Ascii.eqb c "013" then String BACKSLASH "r"
  else if is_printable c then chr c
  else String BACKSLASH (String "x" (hex2 (code c))).

Definition repr_str (s : string) : string :=
  let quote :=
    if str_exists (Ascii.eqb SQUOTE) s && negb (str_exists (Ascii.eqb DQUOTE) s)
    then DQUOTE else SQUOTE in
  String quote (concat EmptyString (map (repr_char quote) (list_ascii_of_string s)))
    ++ chr quote.

Definition float_repr (f : pyfloat) : string :=
  match f with
  | FNan => "nan"
  | FInf => "inf"
  | FNegInf => "-inf"
  | FFinite r => r
  end.

Fixpoint repr (v : value) : string :=
  match v with
  | PNone => "None"
  | PBool true => "True"
  | PBool false => "False"
  | PInt z => str_of_int z
  | PFloat f => float_repr f
  | PStr s => repr_str s
  | PList items => "[" ++ join ", " (map repr items) ++ "]"
  | PDict items =>
      "{" ++ join ", "
               (map (fun kv => repr_str (fst kv) ++ ": " ++ repr (snd kv)) items)
          ++ "}"
  | PForeign _ r => r
  end.

(** ** [json.dumps(o, separators=..., indent=..., ensure_ascii=False)] *)

(** [json.encoder.py_encode_basestring]: the escapes of [ESCAPE_DCT]. *)
Definition escape_char (c : ascii) : string :=
  if Ascii.eqb c BACKSLASH then String BACKSLASH (chr BACKSLASH)
  else if Ascii.eqb c DQUOTE then String BACKSLASH (chr DQUOTE)
  else if Ascii.eqb c "008" then String BACKSLASH "b"
  else if Ascii.eqb c "012" then String BACKSLASH "f"
  else if Ascii.eqb c LF then String BACKSLASH "n"
  else if Ascii.eqb c "013" then String BACKSLASH "r"
  else if Ascii.eqb c "009" then String BACKSLASH "t"
  else if (code c <? 32)%N then String BACKSLASH ("u00" ++ hex2 (code c))
  else chr c.

Fixpoint escape (s : string) : string :=
  match s with
  | EmptyString => EmptyString
  | String c r => escape_char c ++ escape r
  end.

Definition encode_basestring (s : string) : string :=
  String DQUOTE (escape s) ++ chr DQUOTE.

(** [floatstr] of [json.encoder] with [allow_nan=True]. *)
Definition floatstr (f : pyfloat) : string :=
  match f with
  | FNan => "NaN"
  | FInf => "Infinity"
  | FNegInf => "-Infinity"
  | FFinite r => r
  end.

(** The encoder's settings after [JSONEncoder.__init__]. *)
Record encoder : Type := {
  item_separator : string;
  key_separator : string;
  indent : option nat
}.

Definition make_encoder (separators : option (string * string))
    (indent : option nat) : encoder :=
  match separators with
  | Some (i, k) => {| item_separator := i; key_separator := k; indent := indent |}
  | None =>
      match indent with
      | Some _ => {| item_separator := ","; key_separator := ": "; indent := indent |}
      | None => {| item_separator := ", "; key_separator := ": "; indent := None |}
      end
  end.

Definition newline_indent (e : encoder) (level : nat) : option string :=
  match indent e with
  | Some n => Some (String LF (spaces (n * level)))
  | None => None
  end.

Definition opt_text (o : option string) : string :=
  match o with
  | Some s => s
  | None => EmptyString
  end.

(** The element loop of [_iterencode_list]: the chunks of the items, with
    [separator] before every item but the first. *)
Definition encode_items (enc : value -> outcome string) (separator : string)
    : bool -> list value -> outcome string :=
  fix chunks (first : bool) (l : list value) : outcome string :=
    match l with
    | [] => Return EmptyString
    | v :: rest =>
        c <- enc v ;;
        cs <- chunks false rest ;;
        Return ((if first then EmptyString else separator) ++ c ++ cs)
    end.

(** The item loop of [_iterencode_dict]. *)
Definition encode_members (enc : value -> outcome string)
    (separator key_sep : string)
    : bool -> list (string * value) -> outcome string :=
  fix chunks (first : bool) (l : list (string * value)) : outcome string :=
    match l with
    | [] => Return EmptyString
    | (key, v) :: rest =>
        c <- enc v ;;
        cs <- chunks false rest ;;
        Return ((if first then EmptyString else separator)
                  ++ encode_basestring key ++ key_sep ++ c ++ cs)
    end.

(** [_iterencode] of [json.encoder], chunks concatenated; [level] is
    [_current_indent_level]. *)
Fixpoint iterencode (e : encoder) (level : nat) (o : value) : outcome string :=
  match o with
  | PStr s => Return (encode_basestring s)
  | PNone => Return "null"
  | PBool true => Return "true"
  | PBool false => Return "false"
  | PInt z => Return (str_of_int z)
  | PFloat f => Return (floatstr f)
  | PList [] => Return "[]"
  | PList lst =>
      let nl := newline_indent e (S level) in
      let separator := item_separator e ++ opt_text nl in
      body <- encode_items (iterencode e (S level)) separator true lst ;;
      Return ("[" ++ opt_text nl ++ body
                  ++ opt_text (newline_indent e level) ++ "]")
  | PDict [] => Return "{}"
  | PDict dct =>
      let nl := newline_indent e (S level) in
      let separator := item_separator e ++ opt_text nl in
      body <- encode_members (iterencode e (S level)) separator
                (key_separator e) true dct ;;
      Return ("{" ++ opt_text nl ++ body
                  ++ opt_text (newline_indent e level) ++ "}")
  | PForeign type_name _ =>
      Raise (TypeError ("Object of type " ++ type_name
                          ++ " is not JSON serializable"))
  end.

Definition json_dumps (separators : option (string * string))
    (indent : option nat) (o : value) : outcome string :=
  iterencode (make_encoder separators indent) 0 o.

(** ** The options (class [opts]) *)

Record opts : Type := {
  compact : bool;
  nulls : bool;
  raw : bool;
  lines : bool;
  mono : bool;
  schema : bool;
  types : bool
}.

(** ** class [Schema] *)

Module Schema.

(** [self._schema_list], threaded through the recursion; a raised exception
    leaves the list as it is at that point. *)
Definition M : Type := list string -> outcome unit * list string.

Definition skip : M := fun st => (Return tt, st).

Definition seq (a b : M) : M :=
  fun st =>
    match a st with
    | (Return _, st') => b st'
    | (Raise e, st') => (Raise e, st')
    end.

(** [self._schema_list.append(line)], where computing [line] may raise. *)
Definition append (line : outcome string) : M :=
  fun st =>
    match line with
    | Return l => (Return tt, (st ++ [l])%list)
    | Raise e => (Raise e, st)
    end.

(** [__init__] *)
Definition init : list string := [].

(** The [if val == 'true' or ...] cascade, written out twice in the source
    with the same text. *)
Definition val_type_of (val : string) : string :=
  if (val =? "true") || (val =? "false") then "// (boolean)"
  else if val =? "null" then "// (null)"
  else if isdigit (str_replace "." EmptyString (Some 1) val) then "// (number)"
  else "// (string)".

(** The line appended for a scalar member [k] of a dict (lines 167-185). *)
Definition member_line (o : opts) (path k val : string) : string :=
  let val_type := if types o then val_type_of val else EmptyString in
  let padding :=
    if types o then
      if (len path + len k + len val + len val_type <? 70)%nat
      then spaces (69 - (len path + len k + len val + len val_type))
      else "  "
    else EmptyString in
  path ++ "." ++ k ++ " = " ++ val ++ ";" ++ padding ++ val_type.

(** The line appended in the final [else] branch (lines 188-207). *)
Definition terminal_line (o : opts) (path val : string) : string :=
  let val_type := if types o then val_type_of val else EmptyString in
  let path := if path =? EmptyString then "." else path in
  let padding :=
    if (len path + len val + len val_type <? 70)%nat
    then spaces (70 - (len path + len val + len val_type))
    else "  " in
  path ++ " = " ++ val ++ ";" ++ padding ++ val_type.

(** [for i, item in enumerate(l): body(i, item)], counting from [i]. *)
Definition for_enumerate (body : nat -> value -> M) : nat -> list value -> M :=
  fix loop (i : nat) (l : list value) : M :=
    match l with
    | [] => skip
    | item :: rest => seq (body i item) (loop (S i) rest)
    end.

(** [for k, v in d.items(): body(k, v)] *)
Definition for_items (body : string -> value -> M) : list (string * value) -> M :=
  fix loop (l : list (string * value)) : M :=
    match l with
    | [] => skip
    | (k, v) :: rest => seq (body k v) (loop rest)
    end.

(** In the dict branch, [k = f'{k}'] leaves a [str] key as it is. *)
Fixpoint _schema_gen (o : opts) (src : value) (path : string) {struct src} : M :=
  match src with
  | PList items =>
      if path =? EmptyString then
        for_enumerate
          (fun i item => _schema_gen o item (".[" ++ str_of_nat i ++ "]"))
          0 items
      else
        for_enumerate
          (fun i item =>
             _schema_gen o item
               (path ++ "." ++ repr src ++ "[" ++ str_of_nat i ++ "]"))
          0 items
  | PDict items =>
      for_items
        (fun k v =>
           match v with
           | PList vitems =>
               for_enumerate
                 (fun i item =>
                    _schema_gen o item
                      (path ++ "." ++ k ++ "[" ++ str_of_nat i ++ "]"))
                 0 vitems
           | PDict _ => _schema_gen o v (path ++ "." ++ k)
           | _ =>
               append (val <- json_dumps None None v ;;
                       Return (member_line o path k val))
           end)
        items
  | _ =>
      append (val <- json_dumps None None src ;;
              Return (terminal_line o path val))
  end.

Definition create_schema (o : opts) (data : value) (self : list string)
    : outcome string * list string :=
  match _schema_gen o data EmptyString self with
  | (Return _, l) => (Return (join (chr LF) l), [])
  | (Raise e, l) => (Raise e, l)
  end.

End Schema.

(** ** class [Json] *)

Module Json.

Definition is_list (v : value) : bool :=
  match v with
  | PList _ => true
  | _ => false
  end.

(** [entry.replace('\n', '\\n')] *)
Definition escape_newlines (s : string) : string :=
  str_replace LF (String BACKSLASH "n") None s.

Definition quoted (s : string) : string := String DQUOTE s ++ chr DQUOTE.

(** The [for entry in data] loop of the flat-list case; an entry that is
    none of [None], dict, bool, int, float, str matches no branch. *)
Fixpoint lines_loop (o : opts) (separators : option (string * string))
    (flat_list : string) (data : list value) : outcome string :=
  match data with
  | [] => Return flat_list
  | entry :: rest =>
      match entry with
      | PNone =>
          if nulls o
          then lines_loop o separators (flat_list ++ "null" ++ chr LF) rest
          else lines_loop o separators (flat_list ++ chr LF) rest
      | PDict _ | PBool _ | PInt _ | PFloat _ =>
          text <- json_dumps separators None entry ;;
          lines_loop o separators (flat_list ++ text ++ chr LF) rest
      | PStr s =>
          let entry := escape_newlines s in
          if raw o
          then lines_loop o separators (flat_list ++ entry ++ chr LF) rest
          else lines_loop o separators (flat_list ++ quoted entry ++ chr LF) rest
      | PList _ | PForeign _ _ => lines_loop o separators flat_list rest
      end
  end.

Definition create_json (o : opts) (data : value) : outcome string :=
  let separators := if compact o || lines o then Some (",", ":") else None in
  let indent := if compact o || lines o then None else Some 2 in
  match data with
  | PDict _ => json_dumps separators indent data
  | PList items =>
      if negb (lines o) then json_dumps separators indent data
      else
        let list_includes_list := existsb is_list items in
        if lines o && list_includes_list then
          Raise (ValueError
                   "Cannot print list of lists as lines. Try normal JSON output.")
        else
          flat_list <- lines_loop o separators EmptyString items ;;
          Return (rstrip flat_list)
  | PNone => if nulls o then Return "null" else Return EmptyString
  | PBool _ | PInt _ | PFloat _ => json_dumps None None data
  | PStr s =>
      let data := escape_newlines s in
      if raw o then Return data else Return (quoted data)
  | PForeign _ _ =>
      _ <- json_dumps None None data ;;
      Raise (TypeError "Object is not JSON serializable")
  end.

End Json.

(** ** Vocabulary of the specification *)

Definition is_float_char (c : ascii) : bool :=
  let n := code c in
  ((48 <=? n) && (n <=? 57) || (n =? 43) || (n =? 45) || (n =? 46) || (n =? 101))%N.

(** The text of a finite float: digits, sign, point and exponent mark. *)
Definition float_text (r : string) : bool :=
  negb (r =? EmptyString) && str_forall is_float_char r.

(** A value of the JSON value model: no foreign object anywhere in it. *)
Fixpoint json_compatible (v : value) : bool :=
  match v with
  | PList items => forallb json_compatible items
  | PDict items => forallb (fun kv => json_compatible (snd kv)) items
  | PFloat (FFinite r) => float_text r
  | PForeign _ _ => false
  | _ => true
  end.

(** A scalar or null. *)
Definition is_leaf (v : value) : bool :=
  match v with
  | PList _ | PDict _ => false
  | _ => true
  end.

(** The leaves of a value in depth-first pre-order: array elements by index,
    object members in insertion order. *)
Fixpoint leaves (v : value) : list value :=
  match v with
  | PList items => flat_map leaves items
  | PDict items => flat_map (fun kv => leaves (snd kv)) items
  | _ => [v]
  end.


(** Running [m] appends one line per element of [vs], related by [R], and
    returns normally. *)
Definition emits (m : Schema.M) (R : string -> value -> Prop) (vs : list value)
    : Prop :=
  forall st, exists ls,
    m st = (Return tt, (st ++ ls)%list) /\ Forall2 R ls vs.


(** [str.endswith(suffix)] *)
Fixpoint endswith (s suffix : string) : bool :=
  (s =? suffix) ||
  match s with
  | EmptyString => false
  | String _ r => endswith r suffix
  end.

(** A JSON Number: an [int] or a [float] (a [bool] is a Boolean). *)
Definition is_number (v : value) : bool :=
  match v with
  | PInt _ | PFloat _ => true
  | _ => false
  end.

(** The four sample configurations used in the examples below. *)
Definition no_flags : opts :=
  {| compact := false; nulls := false; raw := false; lines := false;
     mono := false; schema := false; types := false |}.

Definition with_types : opts :=
  {| compact := false; nulls := false; raw := false; lines := false;
     mono := false; schema := true; types := true |}.

Definition with_lines : opts :=
  {| compact := false; nulls := false; raw := false; lines := true;
     mono := false; schema := false; types := false |}.

Definition with_lines_nulls : opts :=
  {| compact := false; nulls := true; raw := false; lines := true;
     mono := false; schema := false; types := false |}.

(** Non-empty text made of digits only. *)
Definition only_digits (t : string) : Prop :=
  t <> EmptyString /\ str_forall is_digit_char t = true.

(** The specification's number test: the text, after removing at most one
    decimal point, consists only of digits. *)
Definition digits_modulo_point (val : string) : Prop :=
  only_digits val \/
  exists a b, val = a ++ "." ++ b /\ only_digits (a ++ b).

(** The specification's precedence for the type comment [c] of the rendered
    literal [val]. *)
Definition spec_comment (val c : string) : Prop :=
  (val = "true" \/ val = "false" -> c = "// (boolean)") /\
  (val = "null" -> c = "// (null)") /\
  (val <> "true" -> val <> "false" -> val <> "null" ->
   digits_modulo_point val -> c = "// (number)") /\
  (val <> "true" -> val <> "false" -> val <> "null" ->
   ~ digits_modulo_point val -> c = "// (string)").

(** [{"a": {"b": 1, "c": [true, null]}}] *)
Definition nested_example : value :=
  PDict [("a", PDict [("b", PInt 1); ("c", PList [PBool true; PNone])])].



(** A number below zero; a float is negative when its text has the sign. *)
Definition negative (v : value) : Prop :=
  match v with
  | PInt z => (z < 0)%Z
  | PFloat f => prefix "-" (floatstr f) = true
  | _ => False
  end.

Definition no_point (s : string) : bool :=
  str_forall (fun c => negb (Ascii.eqb c ".")) s.

(** The two error kinds of the formatter. *)
Definition UnsupportedShapeError (r : outcome string) : Prop :=
  exists msg, r = Raise (ValueError msg).

Definition NonSerializableValueError (r : outcome string) : Prop :=
  exists msg, r = Raise (TypeError msg).

Definition only_TypeError (r : outcome string) : Prop :=
  forall ex, r = Raise ex -> exists m, ex = TypeError m.

(** The text has no newline character: it occupies one output line. *)
Definition one_line (t : string) : bool :=
  negb (str_exists (Ascii.eqb LF) t).

(** The separators of compact and lines mode. *)
Definition compact_separators : option (string * string) := Some (",", ":").

(** The text that lines mode prints for one element of a flat array. *)
Definition rendered (o : opts) (entry : value) (text : string) : Prop :=
  match entry with
  | PNone => text = if nulls o then "null" else EmptyString
  | PDict _ | PBool _ | PInt _ | PFloat _ =>
      json_dumps compact_separators None entry = Return text
      /\ one_line text = true
  | PStr s =>
      text = (if raw o then Json.escape_newlines s
              else Json.quoted (Json.escape_newlines s))
      /\ one_line (Json.escape_newlines s) = true
  | PList _ | PForeign _ _ => False
  end.

(** Every text followed by a newline. *)
Fixpoint unlines (texts : list string) : string :=
  match texts with
  | [] => EmptyString
  | t :: rest => t ++ chr LF ++ unlines rest
  end.

(** A JSON string literal: a quote, then characters none of which is a
    bare quote or a control character, a backslash always followed by an
    escape letter, then the closing quote and nothing more. *)
Fixpoint json_string_body (s : string) : bool :=
  match s with
  | EmptyString => false
  | String c r =>
      if Ascii.eqb c DQUOTE then (r =? EmptyString)
      else if Ascii.eqb c BACKSLASH then
        match r with
        | EmptyString => false
        | String e r' =>
            str_exists (Ascii.eqb e) ("bfnrtu/" ++ chr DQUOTE ++ chr BACKSLASH)
            && json_string_body r'
        end
      else negb (code c <? 32)%N && json_string_body r
  end.

Definition is_json_string_literal (s : string) : bool :=
  match s with
  | EmptyString => false
  | String c r => Ascii.eqb c DQUOTE && json_string_body r
  end.

(** An encoder that never breaks lines: no indentation, separators without
    a newline. *)
Definition flat_encoder (e : encoder) : Prop :=
  indent e = None /\ one_line (item_separator e) = true
  /\ one_line (key_separator e) = true.

(** The encoding returns normally, on one line when the encoder is flat. *)
Definition encodes (e : encoder) (r : outcome string) : Prop :=
  exists t, r = Return t /\ (flat_encoder e -> one_line t = true).

(** Every character is a newline or one the JSON encoder leaves as it is
    (no double quote, backslash or other control character). *)
Definition plain_or_newline (s : string) : bool :=
  str_forall (fun c => Ascii.eqb c LF || (escape_char c =? chr c)) s.

(** Some component of the value is a foreign object. *)
Fixpoint has_foreign (v : value) : bool :=
  match v with
  | PForeign _ _ => true
  | PList items => existsb has_foreign items
  | PDict items => existsb (fun kv => has_foreign (snd kv)) items
  | _ => false
  end.

(** ** Vocabulary for the further properties *)

(** The JSON literal of a scalar, as [_schema_gen] prints it. *)
Definition literal (v : value) : string :=
  match json_dumps None None v with
  | Return t => t
  | Raise _ => EmptyString
  end.

(** Every key of every object in the value satisfies [p]. *)
Fixpoint all_keys (p : string -> bool) (v : value) : bool :=
  match v with
  | PList items => forallb (all_keys p) items
  | PDict items => forallb (fun kv => p (fst kv) && all_keys p (snd kv)) items
  | _ => true
  end.


(** [path or '.'] *)
Definition path_or_dot (path : string) : string :=
  if path =? EmptyString then "." else path.

(** The run either returns or raises [TypeError], and in both cases leaves
    the buffer it found with lines appended at its end. *)
Definition tame (m : Schema.M) : Prop :=
  forall st, exists ls,
    m st = (Return tt, (st ++ ls)%list) \/
    exists msg, m st = (Raise (TypeError msg), (st ++ ls)%list).




(** The shapes that [create_json] prints on several lines: a container in
    pretty mode and an array in lines mode. *)
Definition multi_line_mode (o : opts) (data : value) : bool :=
  match data with
  | PList _ => lines o || negb (compact o)
  | PDict _ => negb (compact o || lines o)
  | _ => false
  end.

(** [s.split(sep)] for a one-character separator. *)
Fixpoint split (sep : ascii) (s : string) : list string :=
  match s with
  | EmptyString => [EmptyString]
  | String c r =>
      if Ascii.eqb c sep then EmptyString :: split sep r
      else
        match split sep r with
        | x :: xs => String c x :: xs
        | [] => [chr c]
        end
  end.

(** [x in l] for strings. *)
Definition str_in (x : string) (l : list string) : bool :=
  existsb (String.eqb x) l.

(** ** class [JelloTheme] *)

Module JelloTheme.

(** The style of the four token classes [Name], [Keyword], [Number] and
    [String] of the [theme] dict. *)
Record theme_t : Type := {
  Name : string;
  Keyword : string;
  Number : string;
  String_ : string
}.

(** The class attribute [theme]. *)
Definition theme : theme_t :=
  {| Name := "bold ansiblue";
     Keyword := "ansibrightblack";
     Number := "ansimagenta";
     String_ := "ansigreen" |}.

(** The four colour attributes of class [opts]: [None] or a [str]. *)
Record color_opts : Type := {
  keyname_color : option string;
  keyword_color : option string;
  number_color : option string;
  string_color : option string
}.

(** The colour names accepted in [JELLO_COLORS]. *)
Definition env_color_names : list string :=
  [ "black"; "red"; "green"; "yellow"; "blue"; "magenta"; "cyan"; "gray";
    "brightblack"; "brightred"; "brightgreen"; "brightyellow"; "brightblue";
    "brightmagenta"; "brightcyan"; "white"; "default" ].

Definition defaults : list string := ["default"; "default"; "default"; "default"].

Definition warning : string :=
  "jello:   Warning: could not parse JELLO_COLORS environment variable"
    ++ chr LF.

(** Truth value of [os.getenv(...)] and of a colour attribute: [None] and
    the empty string are false. *)
Definition truthy (x : option string) : bool :=
  match x with
  | Some s => negb (s =? EmptyString)
  | None => false
  end.

(** [f'{prefix}ansi{c}' if c else old] *)
Definition from_opts (prefix : string) (c : option string) (old : string)
    : string :=
  match c with
  | Some s => if truthy c then prefix ++ "ansi" ++ s else old
  | None => old
  end.

(** [f'{prefix}ansi{color_list[i]}' if not color_list[i] == 'default' else
    old]; [None] stands for [IndexError]. *)
Definition from_env (prefix : string) (color_list : list string) (i : nat)
    (old : string) : option string :=
  match nth_error color_list i with
  | Some c => Some (if negb (c =? "default") then prefix ++ "ansi" ++ c else old)
  | None => None
  end.

(** The colour list and the [input_error] flag before the warning. *)
Definition read_env (env_colors : option string) : list string * bool :=
  match env_colors with
  | Some s =>
      if truthy env_colors then
        let color_list := split "," s in
        (color_list,
         negb (List.length color_list =? 4)%nat
         || existsb (fun color => negb (str_in color env_color_names))
              color_list)
      else (defaults, false)
  | None => (defaults, false)
  end.

(** [set_colors]: the new [self.theme] and what is printed on stderr;
    [pygments_installed] is [PYGMENTS_INSTALLED], [env_colors] the value of
    [os.getenv('JELLO_COLORS')]. *)
Definition set_colors (pygments_installed : bool) (env_colors : option string)
    (c : color_opts) (self_theme : theme_t)
    : option (theme_t * list string) :=
  let (color_list0, input_error) := read_env env_colors in
  let stderr := if input_error then [warning ++ chr LF] else [] in
  let color_list := if input_error then defaults else color_list0 in
  if pygments_installed then
    let t1 :=
      {| Name := from_opts "bold " (keyname_color c) (Name self_theme);
         Keyword := from_opts EmptyString (keyword_color c) (Keyword self_theme);
         Number := from_opts EmptyString (number_color c) (Number self_theme);
         String_ := from_opts EmptyString (string_color c) (String_ self_theme) |} in
    match from_env "bold " color_list 0 (Name t1),
          from_env EmptyString color_list 1 (Keyword t1),
          from_env EmptyString color_list 2 (Number t1),
          from_env EmptyString color_list 3 (String_ t1) with
    | Some n, Some k, Some u, Some s =>
        Some ({| Name := n; Keyword := k; Number := u; String_ := s |}, stderr)
    | _, _, _, _ => None
    end
  else Some (self_theme, stderr).

End JelloTheme.

(** The colours in effect after the environment variable was read: the
    four defaults when it is unset or rejected. *)
Definition effective_colors (env_colors : option string) : list string :=
  if snd (JelloTheme.read_env env_colors) then JelloTheme.defaults
  else fst (JelloTheme.read_env env_colors).

(** Precedence for one token class: the colour of the environment variable
    unless it is [default], then the colour attribute of [opts] unless it is
    unset, then the style the theme already has. *)
Definition pick (prefix env_color : string) (opt_color : option string)
    (old : string) : string :=
  if env_color =? "default" then
    match opt_color with
    | Some c => if c =? EmptyString then old else prefix ++ "ansi" ++ c
    | None => old
    end
  else prefix ++ "ansi" ++ env_color.

(** The environment variable holds a non-empty text that is not four known
    colour names separated by commas (an empty value counts as unset). *)
Definition bad_env (env_colors : option string) : bool :=
  match env_colors with
  | Some s =>
      negb (s =? EmptyString)
      && (negb (List.length (split "," s) =? 4)%nat
          || negb (forallb (fun c => str_in c JelloTheme.env_color_names)
                     (split "," s)))
  | None => false
  end.

(** The sixteen colours proper. *)
Definition color_names : list string :=
  [ "black"; "red"; "green"; "yellow"; "blue"; "magenta"; "cyan"; "gray";
    "brightblack"; "brightred"; "brightgreen"; "brightyellow"; "brightblue";
    "brightmagenta"; "brightcyan"; "white" ].

(** A style made of a known colour. *)
Definition style_ok (prefix style : string) : Prop :=
  exists c, In c color_names /\ style = prefix ++ "ansi" ++ c.

Definition theme_ok (t : JelloTheme.theme_t) : Prop :=
  style_ok "bold " (JelloTheme.Name t) /\
  style_ok EmptyString (JelloTheme.Keyword t) /\
  style_ok EmptyString (JelloTheme.Number t) /\
  style_ok EmptyString (JelloTheme.String_ t).

(** A colour attribute as [pyquery] leaves it: unset or a known colour. *)
Definition color_opt_ok (c : option string) : Prop :=
  match c with
  | Some s => In s color_names
  | None => True
  end.

(** ** The option checks of [pyquery] (after the configuration file ran) *)

Module Pyquery.

(** The attributes of class [opts] as Python values. *)
Record raw_opts : Type := {
  initialize : value;
  version_info : value;
  helpme : value;
  compact : value;
  nulls : value;
  raw : value;
  lines : value;
  mono : value;
  schema : value;
  types : value;
  keyname_color : value;
  keyword_color : value;
  number_color : value;
  string_color : value
}.

Definition is_bool (v : value) : bool :=
  match v with
  | PBool _ => true
  | _ => false
  end.

Definition is_none (v : value) : bool :=
  match v with
  | PNone => true
  | _ => false
  end.

(** [opts.compact = opts.raw = opts.lines = opts.nulls = opts.mono =
    opts.schema = False] *)
Definition unset_options (o : raw_opts) : raw_opts :=
  {| initialize := initialize o; version_info := version_info o;
     helpme := helpme o;
     compact := PBool false; nulls := PBool false; raw := PBool false;
     lines := PBool false; mono := PBool false; schema := PBool false;
     types := types o;
     keyname_color := keyname_color o; keyword_color := keyword_color o;
     number_color := number_color o; string_color := string_color o |}.

(** The first [for] loop; the list of values is built before the loop
    starts. Returns the options and [warn_options]. *)
Definition check_options (o : raw_opts) : raw_opts * bool :=
  fold_left
    (fun st option =>
       if negb (is_bool option) && negb (is_none option)
       then (unset_options (fst st), true)
       else st)
    [compact o; raw o; lines o; nulls o; mono o; schema o]
    (o, false).

(** [color_config in valid_colors] *)
Definition in_valid_colors (v : value) : bool :=
  match v with
  | PStr s => str_in s color_names
  | _ => false
  end.

(** [opts.keyname_color = opts.keyword_color = opts.number_color =
    opts.string_color = None] *)
Definition unset_colors (o : raw_opts) : raw_opts :=
  {| initialize := initialize o; version_info := version_info o;
     helpme := helpme o;
     compact := compact o; nulls := nulls o; raw := raw o;
     lines := lines o; mono := mono o; schema := schema o;
     types := types o;
     keyname_color := PNone; keyword_color := PNone;
     number_color := PNone; string_color := PNone |}.

(** The second [for] loop. Returns the options and [warn_colors]. *)
Definition check_colors (o : raw_opts) : raw_opts * bool :=
  fold_left
    (fun st color_config =>
       if negb (in_valid_colors color_config) && negb (is_none color_config)
       then (unset_colors (fst st), true)
       else st)
    [keyname_color o; keyword_color o; number_color o; string_color o]
    (o, false).

Definition options_warning (conf_file : string) : string :=
  "Jello:   Warning: Options must be set to True or False in " ++ conf_file
    ++ chr LF ++ "         Unsetting all options." ++ chr LF.

Definition colors_warning (conf_file : string) : string :=
  "Jello:   Warning: Colors must be set to one of: " ++ join ", " color_names
    ++ " in " ++ conf_file
    ++ chr LF ++ "         Unsetting all colors." ++ chr LF.

(** Lines 354-372 of [pyquery]: both loops, then the warnings on stderr. *)
Definition check_conf (conf_file : string) (o : raw_opts)
    : raw_opts * list string :=
  let (o1, warn_options) := check_options o in
  let (o2, warn_colors) := check_colors o1 in
  (o2,
   List.app
     (if warn_options then [options_warning conf_file ++ chr LF] else [])
     (if warn_colors then [colors_warning conf_file ++ chr LF] else [])).

End Pyquery.

(** [None] or a [bool]. *)
Definition option_ok (v : value) : bool :=
  Pyquery.is_bool v || Pyquery.is_none v.

(** [None] or one of the sixteen colour names. *)
Definition color_ok (v : value) : bool :=
  Pyquery.in_valid_colors v || Pyquery.is_none v.

Definition options_ok (o : Pyquery.raw_opts) : bool :=
  option_ok (Pyquery.compact o) && option_ok (Pyquery.raw o)
  && option_ok (Pyquery.lines o) && option_ok (Pyquery.nulls o)
  && option_ok (Pyquery.mono o) && option_ok (Pyquery.schema o).

Definition colors_ok (o : Pyquery.raw_opts) : bool :=
  color_ok (Pyquery.keyname_color o) && color_ok (Pyquery.keyword_color o)
  && color_ok (Pyquery.number_color o) && color_ok (Pyquery.string_color o).

(** A checked colour attribute as [set_colors] reads it. *)
Definition color_attr (v : value) : option string :=
  match v with
  | PStr s => Some s
  | _ => None
  end.

Definition color_attrs (o : Pyquery.raw_opts) : JelloTheme.color_opts :=
  {| JelloTheme.keyname_color := color_attr (Pyquery.keyname_color o);
     JelloTheme.keyword_color := color_attr (Pyquery.keyword_color o);
     JelloTheme.number_color := color_attr (Pyquery.number_color o);
     JelloTheme.string_color := color_attr (Pyquery.string_color o) |}.

(** ** [load_json] *)

(** The line boundaries of [str.splitlines()] below U+0100: LF, VT, FF, CR,
    FS, GS, RS and NEL. *)
Definition is_linebreak (c : ascii) : bool :=
  let n := code c in
  ((10 <=? n) && (n <=? 13) || (28 <=? n) && (n <=? 30) || (n =? 133))%N.

(** [s.splitlines()]: the lines without their terminators; CR LF counts as
    one terminator and a final terminator opens no new line. *)
Fixpoint splitlines (s : string) : list string :=
  match s with
  | EmptyString => []
  | String c r =>
      if is_linebreak c then
        EmptyString ::
          splitlines
            (if Ascii.eqb c "013" then
               match r with
               | String c2 r2 => if Ascii.eqb c2 LF then r2 else r
               | EmptyString => r
               end
             else r)
      else
        match splitlines r with
        | l :: ls => String c l :: ls
        | [] => [chr c]
        end
  end.

Section LoadJson.

(** [json.loads], which this file does not model: any decoder. *)
Variable loads : string -> outcome value.

(** [[json.loads(i) for i in lines]] *)
Fixpoint loads_each (lines : list string) : outcome (list value) :=
  match lines with
  | [] => Return []
  | i :: rest =>
      v <- loads i ;;
      vs <- loads_each rest ;;
      Return (v :: vs)
  end.

Definition load_json (data : string) : outcome value :=
  match loads data with
  | Return json_dict => Return json_dict
  | Raise _ =>
      json_dict <- loads_each (splitlines data) ;;
      Return (PList json_dict)
  end.

End LoadJson.

(** The text has no line-boundary character. *)
Definition no_linebreak (t : string) : bool :=
  str_forall (fun c => negb (is_linebreak c)) t.

(** The last text, if there is one, is not empty. *)
Fixpoint last_nonempty (texts : list string) : bool :=
  match texts with
  | [] => true
  | [t] => negb (t =? EmptyString)
  | _ :: rest => last_nonempty rest
  end.

(** A decoder for the examples below: it knows the documents [1] and [2]
    and rejects every other text. *)
Definition sample_loads (s : string) : outcome value :=
  if s =? "1" then Return (PInt 1)
  else if s =? "2" then Return (PInt 2)
  else Raise (ValueError "Expecting value").

(** ** Strings *)

(** Sample evaluations of [repr] and [json.dumps]. *)

Example repr_list :
  repr (PList [PInt 1; PStr "a"; PNone; PDict [("k", PBool true)]])
  = "[1, 'a', None, {'k': True}]".
Proof. reflexivity. Qed.

Example dumps_default :
  json_dumps None None (PList [PInt 1; PList [PNone; PBool true]; PDict []])
  = Return "[1, [null, true], {}]".
Proof. reflexivity. Qed.

Example dumps_compact :
  json_dumps (Some (",", ":")) None (PDict [("a", PList [PInt (-1); PFloat FNan])])
  = Return ("{" ++ encode_basestring "a" ++ ":[-1,NaN]}").
Proof. reflexivity. Qed.

Example dumps_pretty :
  json_dumps None (Some 2) (PList [PInt 1; PList [PInt 2]])
  = Return ("[" ++ chr LF ++ "  1," ++ chr LF ++ "  [" ++ chr LF ++ "    2"
              ++ chr LF ++ "  ]" ++ chr LF ++ "]").
Proof. reflexivity. Qed.

Lemma len_app a b : len (a ++ b) = len a + len b.
Proof. unfold len. induction a; simpl; congruence. Qed.

Lemma len_spaces n : len (spaces n) = n.
Proof. unfold len. induction n; simpl; congruence. Qed.

Lemma app_assoc_str (a b c : string) : (a ++ b) ++ c = a ++ b ++ c.
Proof. induction a; simpl; congruence. Qed.

Lemma app_empty_r (a : string) : a ++ EmptyString = a.
Proof. induction a; simpl; congruence. Qed.

Lemma str_forall_app p a b :
  str_forall p (a ++ b) = str_forall p a && str_forall p b.
Proof.
  unfold str_forall. induction a as [|c a IH]; simpl; [reflexivity|].
  rewrite IH. now rewrite andb_assoc.
Qed.

Lemma endswith_app a b : endswith (a ++ b) b = true.
Proof.
  induction a as [|c a IH]; simpl.
  - destruct b; cbn [endswith append]; now rewrite String.eqb_refl.
  - rewrite IH. apply orb_true_r.
Qed.

(** ** The flattener appends one line per leaf *)

Lemma emits_skip R : emits Schema.skip R [].
Proof.
  intros st. exists []. split; [|constructor].
  unfold Schema.skip. now rewrite app_nil_r.
Qed.

Lemma emits_seq a b R v1 v2 :
  emits a R v1 -> emits b R v2 -> emits (Schema.seq a b) R (v1 ++ v2)%list.
Proof.
  intros Ha Hb st.
  destruct (Ha st) as (l1 & E1 & F1).
  destruct (Hb (st ++ l1)%list) as (l2 & E2 & F2).
  exists (l1 ++ l2)%list. split.
  - unfold Schema.seq. rewrite E1, E2. now rewrite app_assoc.
  - now apply Forall2_app.
Qed.

Lemma emits_append R line v :
  R line v -> emits (Schema.append (Return line)) R [v].
Proof.
  intros H st. exists [line]. split; [reflexivity|].
  constructor; [assumption|constructor].
Qed.

Lemma emits_for_enumerate body R l :
  (forall item, In item l -> forall i, emits (body i item) R (leaves item)) ->
  forall i, emits (Schema.for_enumerate body i l) R (flat_map leaves l).
Proof.
  induction l as [|x r IH]; intros H i; simpl.
  - apply emits_skip.
  - apply emits_seq.
    + apply H. now left.
    + apply IH. intros item Hin. apply H. now right.
Qed.

Lemma emits_for_items body R l :
  (forall k v, In (k, v) l -> emits (body k v) R (leaves v)) ->
  emits (Schema.for_items body l) R (flat_map (fun kv => leaves (snd kv)) l).
Proof.
  induction l as [|[k v] r IH]; intros H; simpl.
  - apply emits_skip.
  - apply emits_seq.
    + apply H. now left.
    + apply IH. intros k' v' Hin. apply H. now right.
Qed.

Lemma list_all_In (P : value -> Prop) l :
  list_all value P l -> forall x, In x l -> P x.
Proof.
  induction 1 as [|a Ha r Hr IH]; intros x Hin; [contradiction|].
  destruct Hin as [<-|Hin]; [assumption|now apply IH].
Qed.

Lemma list_all_items_In (P : value -> Prop) (l : list (string * value)) :
  list_all (string * value) (prod_all string (fun _ => unit) value P) l ->
  forall k v, In (k, v) l -> P v.
Proof.
  induction 1 as [|a Ha r Hr IH]; intros k v Hin; [contradiction|].
  destruct Hin as [->|Hin]; [|now apply IH with k].
  inversion Ha; subst. congruence.
Qed.



Lemma dumps_leaf v :
  is_leaf v = true -> json_compatible v = true ->
  exists val, json_dumps None None v = Return val.
Proof.
  destruct v as [|[]| | | | | |]; simpl; intros L C; try discriminate;
    eexists; reflexivity.
Qed.





(** ** Claims about the schema flattener *)




(** C7. Flattening [{"a": {"b": 1, "c": [true, null]}}] with type comments
    on yields exactly three lines, in this order: [.a.b = 1;] annotated
    (number), [.a.c[0] = true;] annotated (boolean), [.a.c[1] = null;]
    annotated (null). *)
Theorem flatten_nested_example o :
  types o = true ->
  Schema.create_schema o nested_example Schema.init
  = (Return (join (chr LF)
       [ ".a.b = 1;" ++ spaces 54 ++ "// (number)";
         ".a.c[0] = true;" ++ spaces 47 ++ "// (boolean)";
         ".a.c[1] = null;" ++ spaces 50 ++ "// (null)" ]), []).
Proof.
  intros T. destruct o as [c n r l m s t]. simpl in T. subst t.
  vm_compute. reflexivity.
Qed.

Lemma flatten_nested_example_witness :
  types with_types = true /\
  Schema.create_schema with_types nested_example Schema.init
  = (Return (join (chr LF)
       [ ".a.b = 1;" ++ spaces 54 ++ "// (number)";
         ".a.c[0] = true;" ++ spaces 47 ++ "// (boolean)";
         ".a.c[1] = null;" ++ spaces 50 ++ "// (null)" ]), []).
Proof.
  split; [reflexivity|]. exact (flatten_nested_example with_types eq_refl).
Defined.

(** C3 (the code departs from it). With type comments off, the line of a
    root scalar and of an array element is followed by alignment blanks:
    [create_schema(1)] is [. = 1;] and 68 spaces, while the member line of
    [{"a": 1}] has nothing after the semicolon. *)
Theorem terminal_line_padded_without_types :
  Schema.create_schema no_flags (PInt 1) Schema.init
    = (Return (". = 1;" ++ spaces 68), []) /\
  Schema.create_schema no_flags (PList [PInt 1]) Schema.init
    = (Return (".[0] = 1;" ++ spaces 65), []) /\
  Schema.create_schema no_flags (PDict [("a", PInt 1)]) Schema.init
    = (Return ".a = 1;", []) /\
  ". = 1;" ++ spaces 68 <> ". = 1;".
Proof. repeat split; try reflexivity. discriminate. Qed.

(** C8. With type comments on, a line whose lengths of path, key (if
    any), literal and comment add up to less than 70 is padded so that the
    comment ends at one fixed column: the member line and the terminal line
    both have length 74; from 70 on, the separator is two spaces. *)
Theorem type_comment_right_aligned o path k val :
  types o = true ->
  let vt := Schema.val_type_of val in
  let p := if path =? EmptyString then "." else path in
  (len path + len k + len val + len vt < 70 ->
     Schema.member_line o path k val
       = path ++ "." ++ k ++ " = " ++ val ++ ";"
           ++ spaces (69 - (len path + len k + len val + len vt)) ++ vt
     /\ len (Schema.member_line o path k val) = 74) /\
  (70 <= len path + len k + len val + len vt ->
     Schema.member_line o path k val
       = path ++ "." ++ k ++ " = " ++ val ++ ";" ++ "  " ++ vt) /\
  (len p + len val + len vt < 70 ->
     Schema.terminal_line o path val
       = p ++ " = " ++ val ++ ";"
           ++ spaces (70 - (len p + len val + len vt)) ++ vt
     /\ len (Schema.terminal_line o path val) = 74) /\
  (70 <= len p + len val + len vt ->
     Schema.terminal_line o path val = p ++ " = " ++ val ++ ";" ++ "  " ++ vt).
Proof.
  intros T vt p. unfold Schema.member_line, Schema.terminal_line.
  rewrite T. fold vt. fold p.
  split; [intros H; split | split; [intros H | split; [intros H; split | intros H]]].
  - apply Nat.ltb_lt in H. now rewrite H.
  - apply Nat.ltb_lt in H. rewrite H.
    rewrite !len_app, len_spaces. change (len ".") with 1.
    change (len " = ") with 3. change (len ";") with 1.
    apply Nat.ltb_lt in H. lia.
  - apply Nat.ltb_ge in H. now rewrite H.
  - apply Nat.ltb_lt in H. now rewrite H.
  - apply Nat.ltb_lt in H. rewrite H.
    rewrite !len_app, len_spaces.
    change (len " = ") with 3. change (len ";") with 1.
    apply Nat.ltb_lt in H. lia.
  - apply Nat.ltb_ge in H. now rewrite H.
Qed.

Lemma type_comment_right_aligned_witness :
  types with_types = true /\
  len (Schema.member_line with_types ".a" "b" "1") = 74 /\
  len (Schema.terminal_line with_types ".a.c[0]" "true") = 74 /\
  Schema.member_line with_types (spaces 70) "k" "1"
    = spaces 70 ++ ".k = 1;  // (number)".
Proof.
  pose proof (type_comment_right_aligned with_types ".a" "b" "1" eq_refl)
    as (M & _).
  pose proof (type_comment_right_aligned with_types ".a.c[0]" "k" "true" eq_refl)
    as (_ & _ & Tm & _).
  pose proof (type_comment_right_aligned with_types (spaces 70) "k" "1" eq_refl)
    as (_ & W & _).
  split; [reflexivity|]. split; [|split].
  - apply M. vm_compute. lia.
  - apply Tm. vm_compute. lia.
  - apply W. vm_compute. lia.
Defined.

(** *** The number test of the type comment *)

Lemma replace_zero old new s : str_replace old new (Some 0) s = s.
Proof. now destruct s. Qed.

Lemma replace_first_no_point val :
  no_point val = true -> str_replace "." EmptyString (Some 1) val = val.
Proof.
  unfold no_point, str_forall.
  induction val as [|c r IH]; simpl; [reflexivity|].
  intros H. apply andb_true_iff in H as [Hc Hr].
  apply negb_true_iff in Hc. rewrite Hc. now rewrite IH.
Qed.

Lemma replace_first_point a b :
  no_point a = true ->
  str_replace "." EmptyString (Some 1) (a ++ "." ++ b) = a ++ b.
Proof.
  unfold no_point, str_forall. change ("." ++ b) with (String "." b).
  induction a as [|c r IH]; simpl.
  - intros _. apply replace_zero.
  - intros H. apply andb_true_iff in H as [Hc Hr].
    apply negb_true_iff in Hc. rewrite Hc. now rewrite IH.
Qed.

Lemma first_point val :
  no_point val = true \/
  exists a b, val = a ++ "." ++ b /\ no_point a = true.
Proof.
  induction val as [|c r IH]; [now left|].
  destruct (Ascii.eqb_spec c ".") as [->|Hc].
  - right. now exists EmptyString, r.
  - apply Ascii.eqb_neq in Hc.
    destruct IH as [H|(a & b & -> & H)].
    + left. unfold no_point, str_forall in *. simpl. now rewrite Hc, H.
    + right. exists (String c a), b. split; [reflexivity|].
      unfold no_point, str_forall in *. simpl. now rewrite Hc, H.
Qed.

Lemma digits_no_point s :
  str_forall is_digit_char s = true -> no_point s = true.
Proof.
  unfold no_point, str_forall.
  induction s as [|c r IH]; simpl; [reflexivity|].
  intros H. apply andb_true_iff in H as [Hc Hr].
  rewrite (IH Hr), andb_true_r.
  destruct (Ascii.eqb_spec c ".") as [->|]; [discriminate Hc|reflexivity].
Qed.

Lemma isdigit_only_digits t : isdigit t = true <-> only_digits t.
Proof.
  unfold only_digits. destruct t as [|c r]; simpl.
  - split; [discriminate|]. now intros [H _].
  - split; [intros H; split; [discriminate|assumption]|now intros [_ H]].
Qed.

Lemma number_test_spec val :
  isdigit (str_replace "." EmptyString (Some 1) val) = true
  <-> digits_modulo_point val.
Proof.
  unfold digits_modulo_point. split.
  - intros H. destruct (first_point val) as [N|(a & b & -> & N)].
    + left. rewrite replace_first_no_point in H by assumption.
      now apply isdigit_only_digits.
    + right. exists a, b. split; [reflexivity|].
      rewrite replace_first_point in H by assumption.
      now apply isdigit_only_digits.
  - intros [H|(a & b & -> & H)].
    + rewrite replace_first_no_point.
      * now apply isdigit_only_digits.
      * apply digits_no_point, H.
    + rewrite replace_first_point.
      * now apply isdigit_only_digits.
      * destruct H as [_ H]. rewrite str_forall_app in H.
        apply andb_true_iff in H as [H _]. now apply digits_no_point.
Qed.

Lemma val_type_of_spec val : spec_comment val (Schema.val_type_of val).
Proof.
  unfold spec_comment, Schema.val_type_of.
  destruct (String.eqb_spec val "true") as [->|Ht];
    [repeat split; (reflexivity || discriminate || congruence)|].
  destruct (String.eqb_spec val "false") as [->|Hf];
    [repeat split; (reflexivity || discriminate || congruence)|].
  destruct (String.eqb_spec val "null") as [->|Hn];
    [simpl; repeat split; (reflexivity || congruence || (intros [?|?]; discriminate))|].
  simpl.
  destruct (isdigit (str_replace "." EmptyString (Some 1) val)) eqn:D.
  - apply number_test_spec in D.
    repeat split; try reflexivity; try congruence; try tauto.
  - assert (N : ~ digits_modulo_point val).
    { intros H. apply number_test_spec in H. congruence. }
    repeat split; try reflexivity; try congruence; try tauto.
Qed.

Lemma val_type_of_quoted rest :
  Schema.val_type_of (String DQUOTE rest) = "// (string)".
Proof. reflexivity. Qed.

Lemma val_type_of_minus rest :
  Schema.val_type_of (String "-" rest) = "// (string)".
Proof. reflexivity. Qed.





(** C10. With type comments on, a negative number is rendered with a
    leading minus sign and its line, member or terminal, is annotated
    (string). *)
Theorem negative_number_annotated_string o v :
  types o = true -> is_number v = true -> negative v ->
  exists rest,
    json_dumps None None v = Return (String "-" rest) /\
    Schema.val_type_of (String "-" rest) = "// (string)" /\
    (forall path k, exists body,
       Schema.member_line o path k (String "-" rest) = body ++ "// (string)") /\
    (forall path, exists body,
       Schema.terminal_line o path (String "-" rest) = body ++ "// (string)").
Proof.
  intros T N Hneg.
  assert (E : exists rest, json_dumps None None v = Return (String "-" rest)).
  { destruct v as [ | | z | f | | | | ]; try discriminate N; simpl in Hneg.
    - destruct z as [|p|p]; try (exfalso; lia).
      eexists. reflexivity.
    - unfold json_dumps. simpl.
      destruct (floatstr f) as [|c r]; [discriminate Hneg|].
      destruct (ascii_dec "-" c) as [<-|Hc]; [now exists r|].
      exfalso. cbn [prefix] in Hneg.
      destruct (ascii_dec "-" c); [contradiction|discriminate Hneg]. }
  destruct E as (rest & E). exists rest.
  split; [assumption|]. split; [apply val_type_of_minus|]. split.
  - intros path k. unfold Schema.member_line. rewrite T, val_type_of_minus.
    eexists. rewrite <- !app_assoc_str. reflexivity.
  - intros path. unfold Schema.terminal_line. rewrite T, val_type_of_minus.
    eexists. rewrite <- !app_assoc_str. reflexivity.
Qed.

Lemma negative_number_annotated_string_witness :
  types with_types = true /\
  is_number (PInt (-5)) = true /\
  negative (PInt (-5)) /\
  Schema.create_schema with_types (PDict [("n", PInt (-5))]) Schema.init
    = (Return (".n = -5;" ++ spaces 55 ++ "// (string)"), []) /\
  exists rest,
    json_dumps None None (PInt (-5)) = Return (String "-" rest) /\
    Schema.val_type_of (String "-" rest) = "// (string)".
Proof.
  split; [reflexivity|]. split; [reflexivity|].
  split; [simpl; lia|]. split; [vm_compute; reflexivity|].
  assert (H : negative (PInt (-5))) by (simpl; lia).
  destruct (negative_number_annotated_string with_types (PInt (-5))
              eq_refl eq_refl H) as (rest & E & V & _).
  exists rest. now split.
Defined.

(** ** The JSON encoder raises nothing but [TypeError] *)

Lemma encode_items_only_TypeError enc sep l :
  (forall v, In v l -> only_TypeError (enc v)) ->
  forall first, only_TypeError (encode_items enc sep first l).
Proof.
  induction l as [|x r IH]; intros H first ex E; simpl in E; [discriminate|].
  destruct (enc x) eqn:Ex; simpl in E.
  - destruct (encode_items enc sep false r) eqn:Er; simpl in E; [discriminate|].
    injection E as <-. apply (IH (fun v Hv => H v (or_intror Hv)) false _ Er).
  - injection E as <-. apply (H x (or_introl eq_refl) _ Ex).
Qed.

Lemma encode_members_only_TypeError enc sep ksep l :
  (forall k v, In (k, v) l -> only_TypeError (enc v)) ->
  forall first, only_TypeError (encode_members enc sep ksep first l).
Proof.
  induction l as [|[k x] r IH]; intros H first ex E; simpl in E; [discriminate|].
  destruct (enc x) eqn:Ex; simpl in E.
  - destruct (encode_members enc sep ksep false r) eqn:Er; simpl in E;
      [discriminate|].
    injection E as <-.
    apply (IH (fun k' v Hv => H k' v (or_intror Hv)) false _ Er).
  - injection E as <-. apply (H k x (or_introl eq_refl) _ Ex).
Qed.

Lemma obind_only_TypeError (m : outcome string) (k : string -> string) :
  only_TypeError m -> only_TypeError (x <- m ;; Return (k x)).
Proof.
  intros H ex E. destruct m; simpl in E; [discriminate|].
  injection E as <-. now apply H.
Qed.

Lemma iterencode_only_TypeError e v :
  forall level, only_TypeError (iterencode e level v).
Proof.
  induction v as [ | b | z | f | s | items IH | items IH | t r ];
    intros level; try (intros ex E; simpl in E; discriminate E).
  - destruct b; intros ex E; discriminate E.
  - destruct items as [|x rest]; [intros ex E; discriminate E|].
    cbn [iterencode]. apply obind_only_TypeError with (k := fun body => _).
    apply encode_items_only_TypeError.
    intros v Hv. apply (list_all_In _ _ IH v Hv).
  - destruct items as [|x rest]; [intros ex E; discriminate E|].
    cbn [iterencode]. apply obind_only_TypeError with (k := fun body => _).
    apply encode_members_only_TypeError.
    intros k v Hv. apply (list_all_items_In _ _ IH k v Hv).
  - intros ex E. simpl in E. injection E as <-. now eexists.
Qed.

Lemma json_dumps_only_TypeError seps ind v :
  only_TypeError (json_dumps seps ind v).
Proof. apply iterencode_only_TypeError. Qed.

Lemma lines_loop_only_TypeError o seps items :
  forall flat_list, only_TypeError (Json.lines_loop o seps flat_list items).
Proof.
  induction items as [|entry rest IH]; intros flat_list ex E;
    [discriminate E|].
  destruct entry; cbn [Json.lines_loop] in E;
    try (destruct (nulls o); now apply IH in E);
    try (destruct (raw o); now apply IH in E);
    try (now apply IH in E);
    match type of E with
    | (text <- ?m ;; _) = _ =>
        destruct m eqn:D; simpl in E;
        [now apply IH in E
        | injection E as <-; exact (json_dumps_only_TypeError _ _ _ _ D)]
    end.
Qed.

(** ** Claims about the output formatter *)

Lemma includes_list_iff items :
  existsb Json.is_list items = true <-> exists l, In (PList l) items.
Proof.
  rewrite existsb_exists. split.
  - intros (x & Hin & Hx).
    destruct x as [ | | | | | l | | ]; try discriminate Hx. now exists l.
  - intros (l & Hin). now exists (PList l).
Qed.

(** C4. In lines mode with an array at the root, [create_json] fails with
    [UnsupportedShapeError] exactly when some element of the array is itself
    an array; the flat array [[1,2,3]] gives the three lines 1, 2, 3. *)
Theorem lines_mode_rejects_nested_arrays o items :
  lines o = true ->
  (UnsupportedShapeError (Json.create_json o (PList items))
   <-> exists l, In (PList l) items) /\
  Json.create_json o (PList [PInt 1; PInt 2; PInt 3])
  = Return ("1" ++ chr LF ++ "2" ++ chr LF ++ "3").
Proof.
  intros L. split.
  - rewrite <- includes_list_iff. unfold Json.create_json, UnsupportedShapeError.
    rewrite L, orb_true_r. cbn [negb andb].
    destruct (existsb Json.is_list items).
    + split; [reflexivity|]. intros _. eexists. reflexivity.
    + split; [|discriminate]. intros (msg & E). exfalso.
      destruct (Json.lines_loop o (Some (",", ":")) EmptyString items) eqn:D;
        simpl in E; [discriminate E|].
      injection E as ->.
      destruct (lines_loop_only_TypeError _ _ _ _ _ D) as (m & Hm).
      discriminate Hm.
  - unfold Json.create_json. rewrite L, orb_true_r. reflexivity.
Qed.

Lemma lines_mode_rejects_nested_arrays_witness :
  lines with_lines = true /\
  UnsupportedShapeError
    (Json.create_json with_lines (PList [PList [PInt 1; PInt 2]])) /\
  Json.create_json with_lines (PList [PInt 1; PInt 2; PInt 3])
  = Return ("1" ++ chr LF ++ "2" ++ chr LF ++ "3").
Proof.
  split; [reflexivity|].
  destruct (lines_mode_rejects_nested_arrays with_lines
              [PList [PInt 1; PInt 2]] eq_refl) as ((_ & R) & X).
  split; [|exact X].
  apply R. exists [PInt 1; PInt 2]. simpl. now left.
Defined.

(** *** Where a foreign object is rejected *)

Lemma encode_items_foreign enc sep l :
  (forall v, In v l -> only_TypeError (enc v)) ->
  (exists x, In x l /\ NonSerializableValueError (enc x)) ->
  forall first, NonSerializableValueError (encode_items enc sep first l).
Proof.
  induction l as [|a r IH]; intros H (x & Hin & Hx) first;
    [contradiction|].
  cbn [encode_items]. destruct (enc a) as [c|ex] eqn:Ea; cbn [obind].
  - destruct Hin as [->|Hin].
    + destruct Hx as (m & Hx). congruence.
    + destruct (IH (fun v Hv => H v (or_intror Hv))
                  (ex_intro _ x (conj Hin Hx)) false) as (m & ->).
      now exists m.
  - destruct (H a (or_introl eq_refl) ex Ea) as (m & ->). now exists m.
Qed.

Lemma encode_members_foreign enc sep ksep l :
  (forall k v, In (k, v) l -> only_TypeError (enc v)) ->
  (exists k x, In (k, x) l /\ NonSerializableValueError (enc x)) ->
  forall first, NonSerializableValueError (encode_members enc sep ksep first l).
Proof.
  induction l as [|[ka a] r IH]; intros H (k & x & Hin & Hx) first;
    [contradiction|].
  cbn [encode_members]. destruct (enc a) as [c|ex] eqn:Ea; cbn [obind].
  - destruct Hin as [E|Hin].
    + injection E as -> ->. destruct Hx as (m & Hx). congruence.
    + destruct (IH (fun k' v Hv => H k' v (or_intror Hv))
                  (ex_intro _ k (ex_intro _ x (conj Hin Hx))) false)
        as (m & ->).
      now exists m.
  - destruct (H ka a (or_introl eq_refl) ex Ea) as (m & ->). now exists m.
Qed.

Lemma iterencode_foreign e v :
  has_foreign v = true ->
  forall level, NonSerializableValueError (iterencode e level v).
Proof.
  induction v as [ | b | z | f | s | items IH | items IH | t r ];
    intros Hf level; try discriminate Hf.
  - simpl in Hf. apply existsb_exists in Hf as (x & Hin & Hx).
    destruct items as [|a rest]; [contradiction|]. cbn [iterencode].
    destruct (encode_items_foreign (iterencode e (S level))
                (item_separator e ++ opt_text (newline_indent e (S level)))
                (a :: rest)
                (fun v _ => iterencode_only_TypeError e v (S level))
                (ex_intro _ x (conj Hin
                   (list_all_In _ _ IH x Hin Hx (S level)))) true)
      as (m & ->).
    now exists m.
  - simpl in Hf. apply existsb_exists in Hf as ([k x] & Hin & Hx).
    simpl in Hx.
    destruct items as [|a rest]; [contradiction|]. cbn [iterencode].
    destruct (encode_members_foreign (iterencode e (S level))
                (item_separator e ++ opt_text (newline_indent e (S level)))
                (key_separator e) (a :: rest)
                (fun _ v _ => iterencode_only_TypeError e v (S level))
                (ex_intro _ k (ex_intro _ x (conj Hin
                   (list_all_items_In _ _ IH k x Hin Hx (S level))))) true)
      as (m & ->).
    now exists m.
  - now eexists.
Qed.

(** Outside lines mode on an array root, a foreign object anywhere in the
    value makes [create_json] raise [TypeError]. *)
Lemma create_json_rejects_foreign o data :
  has_foreign data = true ->
  lines o = false \/ Json.is_list data = false ->
  NonSerializableValueError (Json.create_json o data).
Proof.
  intros Hf Hmode.
  destruct data as [ | b | z | f | s | items | items | t r ];
    try discriminate Hf.
  - destruct Hmode as [L|L]; [|discriminate L].
    unfold Json.create_json. rewrite L. cbn [negb].
    now apply iterencode_foreign.
  - now apply iterencode_foreign.
  - now eexists.
Qed.

(** C1 (the code departs from it). In lines mode a foreign element of the
    root array matches no branch of the element loop and is dropped:
    [create_json([{1}])] returns the empty string, and [[1, {1}, 2]] gives
    the two lines 1 and 2; the same object at the root, or inside a dict
    element, raises [TypeError]. *)
Theorem lines_mode_drops_foreign_element :
  Json.create_json with_lines (PList [PForeign "set" "{1}"])
    = Return EmptyString /\
  Json.create_json with_lines (PList [PInt 1; PForeign "set" "{1}"; PInt 2])
    = Return ("1" ++ chr LF ++ "2") /\
  NonSerializableValueError
    (Json.create_json with_lines (PForeign "set" "{1}")) /\
  NonSerializableValueError
    (Json.create_json with_lines
       (PList [PDict [("k", PForeign "set" "{1}")]])).
Proof.
  repeat split; try reflexivity; eexists; reflexivity.
Qed.

(** *** [rstrip] removes a run of whitespace at the very end, nothing else *)

Lemma rstrip_snoc_space s c :
  is_space_char c = true -> rstrip (s ++ chr c) = rstrip s.
Proof.
  intros Hc. induction s as [|a r IH]; simpl.
  - now rewrite Hc.
  - now rewrite IH.
Qed.

Lemma rstrip_split s :
  exists ws, s = rstrip s ++ ws /\ str_forall is_space_char ws = true.
Proof.
  induction s as [|a r (ws & E & W)]; simpl.
  - now exists EmptyString.
  - destruct (rstrip r) as [|x y] eqn:R.
    + destruct (is_space_char a) eqn:A.
      * exists (String a ws). split; [simpl in E; now rewrite <- E|].
        unfold str_forall in *. simpl. now rewrite A, W.
      * exists ws. split; [simpl in *; now rewrite <- E|assumption].
    + exists ws. split; [simpl in *; now rewrite <- E|assumption].
Qed.

Lemma rstrip_no_trailing_space s :
  forall t c, rstrip s = t ++ chr c -> is_space_char c = false.
Proof.
  induction s as [|a r IH]; intros t c E; simpl in E.
  - destruct t; discriminate E.
  - destruct (rstrip r) as [|x y] eqn:R.
    + destruct (is_space_char a) eqn:A.
      * destruct t; discriminate E.
      * destruct t as [|b t']; simpl in E.
        -- injection E as ->. assumption.
        -- injection E as _ E. destruct t'; discriminate E.
    + destruct t as [|b t']; simpl in E.
      * injection E as _ E. discriminate E.
      * injection E as _ E. now apply (IH t' c).
Qed.

Lemma unlines_join texts :
  texts <> [] -> unlines texts = join (chr LF) texts ++ chr LF.
Proof.
  induction texts as [|t rest IH]; [congruence|]. intros _.
  destruct rest as [|t' rest'].
  - reflexivity.
  - change (unlines (t :: t' :: rest'))
      with (t ++ chr LF ++ unlines (t' :: rest')).
    rewrite IH by discriminate.
    change (join (chr LF) (t :: t' :: rest'))
      with (t ++ chr LF ++ join (chr LF) (t' :: rest')).
    now rewrite !app_assoc_str.
Qed.

Lemma rstrip_unlines texts :
  rstrip (unlines texts) = rstrip (join (chr LF) texts).
Proof.
  destruct texts as [|t rest]; [reflexivity|].
  rewrite unlines_join by discriminate.
  now apply rstrip_snoc_space.
Qed.

(** *** The encoder is total on JSON-compatible values, and a flat encoder
    prints on one line *)

Lemma one_line_app a b : one_line (a ++ b) = one_line a && one_line b.
Proof.
  unfold one_line, str_exists.
  induction a as [|c a IH]; [reflexivity|].
  cbn [append list_ascii_of_string existsb].
  destruct (Ascii.eqb LF c); [reflexivity|apply IH].
Qed.

Lemma one_line_escape_char c : one_line (escape_char c) = true.
Proof. destruct c as [[] [] [] [] [] [] [] []]; reflexivity. Qed.

Lemma one_line_escape s : one_line (escape s) = true.
Proof.
  induction s as [|c r IH]; [reflexivity|]. simpl.
  now rewrite one_line_app, one_line_escape_char, IH.
Qed.

Lemma one_line_basestring s : one_line (encode_basestring s) = true.
Proof.
  unfold encode_basestring.
  change (String DQUOTE (escape s) ++ chr DQUOTE)
    with (chr DQUOTE ++ escape s ++ chr DQUOTE).
  now rewrite !one_line_app, one_line_escape.
Qed.

Lemma one_line_uint d : one_line (NilEmpty.string_of_uint d) = true.
Proof.
  induction d; simpl; try reflexivity;
    match goal with
    | |- one_line (String ?c ?r) = true =>
        change (String c r) with (chr c ++ r); now rewrite one_line_app, IHd
    end.
Qed.

Lemma one_line_str_of_int z : one_line (str_of_int z) = true.
Proof.
  unfold str_of_int, NilZero.string_of_int, NilZero.string_of_uint.
  destruct (Z.to_int z) as [d|d]; destruct d; try reflexivity;
    repeat match goal with
    | |- one_line (String ?c ?r) = true =>
        change (String c r) with (chr c ++ r); rewrite one_line_app; simpl
    end; apply one_line_uint.
Qed.

Lemma one_line_float_chars r :
  str_forall is_float_char r = true -> one_line r = true.
Proof.
  unfold one_line, str_forall, str_exists.
  induction r as [|c r IH]; [reflexivity|].
  cbn [list_ascii_of_string existsb forallb].
  intros H. apply andb_true_iff in H as [Hc Hr].
  destruct (Ascii.eqb_spec LF c) as [<-|]; [discriminate Hc|].
  now apply IH.
Qed.

Lemma one_line_floatstr f :
  json_compatible (PFloat f) = true -> one_line (floatstr f) = true.
Proof.
  destruct f as [ | | | r]; try reflexivity. simpl. unfold float_text.
  intros H. apply andb_true_iff in H as [_ H].
  now apply one_line_float_chars.
Qed.

Lemma encodes_return e t : one_line t = true -> encodes e (Return t).
Proof. intros H. exists t. now split. Qed.

Lemma encode_items_encodes e enc sep l :
  (flat_encoder e -> one_line sep = true) ->
  (forall v, In v l -> encodes e (enc v)) ->
  forall first, encodes e (encode_items enc sep first l).
Proof.
  intros Hs. induction l as [|x r IH]; intros H first; simpl.
  - now apply encodes_return.
  - destruct (H x (or_introl eq_refl)) as (c & -> & Hc).
    destruct (IH (fun v Hv => H v (or_intror Hv)) false) as (cs & -> & Hcs).
    simpl. eexists. split; [reflexivity|]. intros F.
    rewrite !one_line_app, (Hc F), (Hcs F).
    destruct first; [reflexivity|now rewrite (Hs F)].
Qed.

Lemma encode_members_encodes e enc sep l :
  (flat_encoder e -> one_line sep = true) ->
  (forall k v, In (k, v) l -> encodes e (enc v)) ->
  forall first, encodes e (encode_members enc sep (key_separator e) first l).
Proof.
  intros Hs. induction l as [|[k x] r IH]; intros H first;
    cbn [encode_members].
  - now apply encodes_return.
  - destruct (H k x (or_introl eq_refl)) as (c & -> & Hc).
    destruct (IH (fun k' v Hv => H k' v (or_intror Hv)) false)
      as (cs & -> & Hcs).
    cbn [obind]. eexists. split; [reflexivity|]. intros F.
    rewrite !one_line_app, (Hc F), (Hcs F), one_line_basestring.
    destruct F as (Fi & Fs & Fk). rewrite Fk.
    destruct first; [reflexivity|now rewrite (Hs (conj Fi (conj Fs Fk)))].
Qed.

Lemma flat_newline_indent e level :
  flat_encoder e -> newline_indent e level = None.
Proof. intros (Fi & _). unfold newline_indent. now rewrite Fi. Qed.

Lemma flat_separator e level :
  flat_encoder e ->
  one_line (item_separator e ++ opt_text (newline_indent e level)) = true.
Proof.
  intros F. rewrite (flat_newline_indent e level F). simpl.
  rewrite app_empty_r. apply F.
Qed.

Lemma iterencode_encodes e v :
  json_compatible v = true ->
  forall level, encodes e (iterencode e level v).
Proof.
  induction v as [ | b | z | f | s | items IH | items IH | t r ];
    intros C level.
  - now apply encodes_return.
  - destruct b; now apply encodes_return.
  - apply encodes_return, one_line_str_of_int.
  - apply encodes_return. now apply one_line_floatstr.
  - apply encodes_return, one_line_basestring.
  - simpl in C. rewrite forallb_forall in C.
    destruct items as [|x rest]; [now apply encodes_return|].
    cbn [iterencode].
    destruct (encode_items_encodes e (iterencode e (S level))
                (item_separator e ++ opt_text (newline_indent e (S level)))
                (x :: rest) (flat_separator e (S level))
                (fun v Hv => list_all_In _ _ IH v Hv (C v Hv) (S level)) true)
      as (body & -> & Hb).
    simpl. eexists. split; [reflexivity|]. intros F.
    rewrite !(flat_newline_indent e _ F). simpl.
    change (String "[" (body ++ "]")) with ("[" ++ body ++ "]").
    now rewrite !one_line_app, (Hb F).
  - simpl in C. rewrite forallb_forall in C.
    destruct items as [|x rest]; [now apply encodes_return|].
    cbn [iterencode].
    destruct (encode_members_encodes e (iterencode e (S level))
                (item_separator e ++ opt_text (newline_indent e (S level)))
                (x :: rest) (flat_separator e (S level))
                (fun k v Hv => list_all_items_In _ _ IH k v Hv
                                 (C (k, v) Hv) (S level)) true)
      as (body & -> & Hb).
    simpl. eexists. split; [reflexivity|]. intros F.
    rewrite !(flat_newline_indent e _ F). simpl.
    change (String "{" (body ++ "}")) with ("{" ++ body ++ "}").
    now rewrite !one_line_app, (Hb F).
  - discriminate C.
Qed.

Lemma compact_dumps_one_line v :
  json_compatible v = true ->
  exists t, json_dumps compact_separators None v = Return t
            /\ one_line t = true.
Proof.
  intros C. destruct (iterencode_encodes
                        (make_encoder compact_separators None) v C 0)
    as (t & E & H).
  exists t. split; [exact E|]. apply H. now repeat split.
Qed.

(** *** Newlines in strings *)

Lemma escape_newlines_cons c r :
  Json.escape_newlines (String c r)
  = (if Ascii.eqb c LF then String BACKSLASH "n" else chr c)
      ++ Json.escape_newlines r.
Proof.
  unfold Json.escape_newlines. cbn [str_replace option_map].
  now destruct (Ascii.eqb c LF).
Qed.

Lemma escape_newlines_app a b :
  Json.escape_newlines (a ++ b)
  = Json.escape_newlines a ++ Json.escape_newlines b.
Proof.
  induction a as [|c a IH]; [reflexivity|].
  cbn [append]. rewrite !escape_newlines_cons, IH.
  now rewrite app_assoc_str.
Qed.

Lemma escape_newlines_one_line s :
  one_line (Json.escape_newlines s) = true.
Proof.
  induction s as [|c r IH]; [reflexivity|].
  rewrite escape_newlines_cons, one_line_app, IH, andb_true_r.
  destruct (Ascii.eqb_spec c LF) as [->|Hc]; [reflexivity|].
  unfold one_line, str_exists, chr. cbn [list_ascii_of_string existsb].
  destruct (Ascii.eqb_spec LF c) as [E|]; [now symmetry in E|reflexivity].
Qed.

Lemma escape_newlines_id s :
  one_line s = true -> Json.escape_newlines s = s.
Proof.
  induction s as [|c r IH]; [reflexivity|].
  change (String c r) with (chr c ++ r) at 1.
  rewrite one_line_app. intros H. apply andb_true_iff in H as [Hc Hr].
  rewrite escape_newlines_cons, (IH Hr).
  destruct (Ascii.eqb_spec c LF) as [->|]; [discriminate Hc|reflexivity].
Qed.

(** *** The element loop of lines mode *)

Lemma lines_loop_rendered o items :
  existsb Json.is_list items = false ->
  forallb json_compatible items = true ->
  forall flat_list, exists texts,
    Forall2 (rendered o) items texts /\
    Json.lines_loop o compact_separators flat_list items
    = Return (flat_list ++ unlines texts).
Proof.
  induction items as [|entry rest IH]; intros Hflat Hc flat_list.
  - exists []. split; [constructor|]. simpl. now rewrite app_empty_r.
  - cbn [existsb] in Hflat. apply orb_false_iff in Hflat as [He Hflat].
    cbn [forallb] in Hc. apply andb_true_iff in Hc as [Ce Hc].
    specialize (IH Hflat Hc).
    assert (Hstep : forall text,
              rendered o entry text ->
              Json.lines_loop o compact_separators flat_list (entry :: rest)
              = Json.lines_loop o compact_separators
                  (flat_list ++ text ++ chr LF) rest ->
              exists texts,
                Forall2 (rendered o) (entry :: rest) texts /\
                Json.lines_loop o compact_separators flat_list (entry :: rest)
                = Return (flat_list ++ unlines texts)).
    { intros text R E. destruct (IH (flat_list ++ text ++ chr LF))
        as (texts & F & L).
      exists (text :: texts). split; [now constructor|].
      rewrite E, L. cbn [unlines]. now rewrite !app_assoc_str. }
    destruct entry as [ | b | z | f | s | l | d | t r ];
      try discriminate He; try discriminate Ce.
    + apply (Hstep (if nulls o then "null" else EmptyString)).
      * reflexivity.
      * cbn [Json.lines_loop]. now destruct (nulls o).
    + destruct (compact_dumps_one_line _ Ce) as (text & E & O).
      apply (Hstep text); [now split|].
      cbn [Json.lines_loop]. now rewrite E.
    + destruct (compact_dumps_one_line _ Ce) as (text & E & O).
      apply (Hstep text); [now split|].
      cbn [Json.lines_loop]. now rewrite E.
    + destruct (compact_dumps_one_line _ Ce) as (text & E & O).
      apply (Hstep text); [now split|].
      cbn [Json.lines_loop]. now rewrite E.
    + apply (Hstep (if raw o then Json.escape_newlines s
                    else Json.quoted (Json.escape_newlines s))).
      * split; [reflexivity|apply escape_newlines_one_line].
      * cbn [Json.lines_loop]. now destruct (raw o).
    + destruct (compact_dumps_one_line _ Ce) as (text & E & O).
      apply (Hstep text); [now split|].
      cbn [Json.lines_loop]. now rewrite E.
Qed.

(** C9. In lines mode with a flat array of JSON-compatible values at the
    root, each element is rendered on its own, in array order: null as
    [null] with the nulls option and as an empty line without it; an
    object, boolean or number as its compact JSON encoding, on one line. The
    texts are joined by newlines and whitespace is trimmed at the very end
    of the result only: what is removed is a run of whitespace after the
    returned text, which itself does not end in whitespace. *)
Theorem lines_mode_renders_each_element o items :
  lines o = true ->
  existsb Json.is_list items = false ->
  forallb json_compatible items = true ->
  exists texts,
    Forall2 (rendered o) items texts /\
    Json.create_json o (PList items) = Return (rstrip (join (chr LF) texts)) /\
    (exists ws,
       join (chr LF) texts = rstrip (join (chr LF) texts) ++ ws
       /\ str_forall is_space_char ws = true) /\
    (forall t c,
       rstrip (join (chr LF) texts) = t ++ chr c -> is_space_char c = false).
Proof.
  intros L Hflat Hc.
  destruct (lines_loop_rendered o items Hflat Hc EmptyString)
    as (texts & F & E).
  exists texts. split; [assumption|]. split; [|split].
  - unfold Json.create_json. rewrite L, orb_true_r, Hflat.
    cbn [negb andb]. fold compact_separators. rewrite E.
    cbn [obind append]. now rewrite rstrip_unlines.
  - apply rstrip_split.
  - apply rstrip_no_trailing_space.
Qed.

Lemma lines_mode_renders_each_element_witness :
  lines with_lines = true /\
  Json.create_json with_lines
    (PList [PInt 1; PNone; PDict [("a", PBool true)]; PNone; PNone])
  = Return ("1" ++ chr LF ++ chr LF ++ "{" ++ encode_basestring "a" ++ ":true}")
  /\ Json.create_json with_lines_nulls (PList [PNone; PFloat (FFinite "2.5")])
     = Return ("null" ++ chr LF ++ "2.5")
  /\ exists texts,
       Forall2 (rendered with_lines)
         [PInt 1; PNone; PDict [("a", PBool true)]; PNone; PNone] texts /\
       Json.create_json with_lines
         (PList [PInt 1; PNone; PDict [("a", PBool true)]; PNone; PNone])
       = Return (rstrip (join (chr LF) texts)).
Proof.
  split; [reflexivity|]. split; [reflexivity|]. split; [reflexivity|].
  destruct (lines_mode_renders_each_element with_lines
              [PInt 1; PNone; PDict [("a", PBool true)]; PNone; PNone]
              eq_refl eq_refl eq_refl) as (texts & F & E & _).
  exists texts. now split.
Defined.

Lemma quoted_plain_is_json s :
  plain_or_newline s = true ->
  Json.quoted (Json.escape_newlines s) = encode_basestring s.
Proof.
  unfold Json.quoted, encode_basestring. intros H. do 2 f_equal.
  revert H. unfold plain_or_newline, str_forall.
  induction s as [|c r IH]; [reflexivity|].
  cbn [list_ascii_of_string forallb escape]. intros H.
  apply andb_true_iff in H as [Hc Hr].
  rewrite escape_newlines_cons, (IH Hr). f_equal.
  destruct (Ascii.eqb_spec c LF) as [->|]; [reflexivity|].
  simpl in Hc. apply String.eqb_eq in Hc. now rewrite Hc.
Qed.

(** What [create_json] does with a string at the root: every newline is
    replaced by backslash-n and the replaced text is returned as it is with
    the raw option, and between two double quotes without it; that is the
    JSON encoding of the string when it holds no double quote, backslash or
    control character other than newlines. *)
Lemma string_rendering o s :
  Json.create_json o (PStr s)
    = Return (if raw o then Json.escape_newlines s
              else Json.quoted (Json.escape_newlines s)) /\
  one_line (Json.escape_newlines s) = true /\
  Json.escape_newlines (chr LF) = String BACKSLASH "n" /\
  (forall a b, s = a ++ b ->
     Json.escape_newlines s
     = Json.escape_newlines a ++ Json.escape_newlines b) /\
  (one_line s = true -> Json.escape_newlines s = s) /\
  (plain_or_newline s = true ->
     Json.quoted (Json.escape_newlines s) = encode_basestring s).
Proof.
  split; [|split; [|split; [|split; [|split]]]].
  - unfold Json.create_json. now destruct (raw o).
  - apply escape_newlines_one_line.
  - reflexivity.
  - intros a b ->. apply escape_newlines_app.
  - apply escape_newlines_id.
  - apply quoted_plain_is_json.
Qed.

Lemma string_rendering_witness :
  plain_or_newline ("line1" ++ chr LF ++ "line2") = true /\
  Json.create_json no_flags (PStr ("line1" ++ chr LF ++ "line2"))
    = Return (encode_basestring ("line1" ++ chr LF ++ "line2")) /\
  encode_basestring ("line1" ++ chr LF ++ "line2")
    = chr DQUOTE ++ "line1" ++ String BACKSLASH "nline2" ++ chr DQUOTE.
Proof.
  split; [reflexivity|]. split; [|reflexivity].
  destruct (string_rendering no_flags ("line1" ++ chr LF ++ "line2"))
    as (E & _ & _ & _ & _ & Q).
  rewrite E. cbn [raw no_flags]. rewrite (Q eq_refl). reflexivity.
Defined.

(** C2 (the code departs from it). Without the raw option a string is put
    between double quotes by hand and not JSON-quoted: the string made of
    one double quote comes back as three double quotes, at the root and as
    an element in lines mode, which is no JSON string literal; a string with
    a newline and the different string with backslash-n in its place give
    the same text, at the root and in lines mode. The same string inside an
    array outside lines mode goes through the JSON encoder and is escaped. *)
Theorem hand_quoted_string_not_json :
  Json.create_json no_flags (PStr (chr DQUOTE))
    = Return (String DQUOTE (String DQUOTE (chr DQUOTE))) /\
  Json.create_json with_lines (PList [PStr (chr DQUOTE)])
    = Return (String DQUOTE (String DQUOTE (chr DQUOTE))) /\
  is_json_string_literal (String DQUOTE (String DQUOTE (chr DQUOTE))) = false /\
  Json.create_json no_flags (PStr (chr DQUOTE))
    <> Return (encode_basestring (Json.escape_newlines (chr DQUOTE))) /\
  "a" ++ chr LF ++ "b" <> "a" ++ String BACKSLASH "nb" /\
  Json.create_json no_flags (PStr ("a" ++ chr LF ++ "b"))
    = Json.create_json no_flags (PStr ("a" ++ String BACKSLASH "nb")) /\
  Json.create_json with_lines (PList [PStr ("a" ++ chr LF ++ "b")])
    = Json.create_json with_lines (PList [PStr ("a" ++ String BACKSLASH "nb")]) /\
  Json.create_json
    {| compact := true; nulls := false; raw := false; lines := false;
       mono := false; schema := false; types := false |}
    (PList [PStr (chr DQUOTE)])
    = Return ("[" ++ encode_basestring (chr DQUOTE) ++ "]") /\
  encode_basestring (chr DQUOTE)
    = String DQUOTE (String BACKSLASH (String DQUOTE (chr DQUOTE))) /\
  is_json_string_literal (encode_basestring (chr DQUOTE)) = true.
Proof.
  repeat split; try reflexivity; discriminate.
Qed.

(** * Further properties of the code *)

(** ** An induction principle that reaches the items of a list-valued
    member, as the dict branch of [_schema_gen] does *)

Lemma value_ind_deep (P : value -> Prop) :
  (forall v, is_leaf v = true -> P v) ->
  (forall items, (forall x, In x items -> P x) -> P (PList items)) ->
  (forall items,
     (forall k v, In (k, v) items ->
        P v /\ forall l, v = PList l -> forall x, In x l -> P x) ->
     P (PDict items)) ->
  forall v, P v.
Proof.
  intros Hleaf Hlist Hdict.
  assert (S : forall v,
            P v /\ forall l, v = PList l -> forall x, In x l -> P x).
  { induction v as [ | b | z | f | s | items IH | items IH | t r ];
      try (split; [now apply Hleaf|discriminate]).
    - assert (A : forall x, In x items -> P x).
      { intros x Hx. exact (proj1 (list_all_In _ _ IH x Hx)). }
      split; [now apply Hlist|].
      intros l E x Hx. injection E as <-. now apply A.
    - split; [|discriminate]. apply Hdict. intros k v Hin.
      exact (list_all_items_In _ _ IH k v Hin). }
  intros v. exact (proj1 (S v)).
Qed.

(** ** The buffer of [Schema] *)

Lemma tame_skip : tame Schema.skip.
Proof.
  intros st. exists []. left. unfold Schema.skip. now rewrite app_nil_r.
Qed.

Lemma tame_seq a b : tame a -> tame b -> tame (Schema.seq a b).
Proof.
  intros Ha Hb st. unfold Schema.seq.
  destruct (Ha st) as (l1 & [E1|(m1 & E1)]); rewrite E1.
  - destruct (Hb (st ++ l1)%list) as (l2 & [E2|(m2 & E2)]); rewrite E2;
      exists (l1 ++ l2)%list; rewrite app_assoc; [now left|right; now exists m2].
  - exists l1. right. now exists m1.
Qed.

Lemma tame_append v (f : string -> string) :
  tame (Schema.append (val <- json_dumps None None v ;; Return (f val))).
Proof.
  intros st. destruct (json_dumps None None v) as [t|e] eqn:E; simpl.
  - exists [f t]. now left.
  - destruct (json_dumps_only_TypeError _ _ _ _ E) as (m & ->).
    exists []. right. exists m. now rewrite app_nil_r.
Qed.

Lemma tame_for_enumerate body l :
  (forall item, In item l -> forall i, tame (body i item)) ->
  forall i, tame (Schema.for_enumerate body i l).
Proof.
  induction l as [|x r IH]; intros H i; simpl.
  - apply tame_skip.
  - apply tame_seq; [apply H; now left|].
    apply IH. intros item Hin. apply H. now right.
Qed.

Lemma tame_for_items body l :
  (forall k v, In (k, v) l -> tame (body k v)) ->
  tame (Schema.for_items body l).
Proof.
  induction l as [|[k v] r IH]; intros H; simpl.
  - apply tame_skip.
  - apply tame_seq; [apply H; now left|].
    apply IH. intros k' v' Hin. apply H. now right.
Qed.

Lemma schema_gen_tame o src : forall path, tame (Schema._schema_gen o src path).
Proof.
  induction src as [v L | items IH | items IH] using value_ind_deep;
    intros path.
  - destruct v; try discriminate L; apply tame_append.
  - cbn [Schema._schema_gen].
    destruct (path =? EmptyString); apply tame_for_enumerate;
      intros item Hin i; now apply IH.
  - cbn [Schema._schema_gen]. apply tame_for_items. intros k v Hin.
    destruct (IH k v Hin) as [Hv Hsub].
    destruct v as [ | b | z | f | s | l | d | t r ];
      try apply tame_append.
    + apply tame_for_enumerate. intros item Hi i.
      now apply (Hsub l eq_refl item Hi).
    + apply Hv.
Qed.








(** X1. The buffer is only ever appended to. Whatever the value and
    whatever the buffer holds: when [create_schema] returns, the text is the
    lines of the buffer followed by new lines, joined by newlines, and the
    buffer is emptied; when it raises, the buffer is what it was with the
    lines appended so far. No line already in the buffer is removed, moved
    or changed. *)
Theorem create_schema_outcomes o data st :
  (exists ls,
     Schema.create_schema o data st
     = (Return (join (chr LF) (st ++ ls)%list), [])) \/
  (exists e ls,
     Schema.create_schema o data st = (Raise e, (st ++ ls)%list)).
Proof.
  unfold Schema.create_schema.
  destruct (schema_gen_tame o data EmptyString st) as (ls & [E|(m & E)]);
    rewrite E.
  - left. now exists ls.
  - right. now exists (TypeError m), ls.
Qed.











(** ** Paths of the schema lines *)

Section SchemaPaths.

Variable o : opts.
Variable K : string -> bool.
Variable Q : string -> Prop.
Variable R : string -> value -> Prop.

Hypothesis Q_root_index :
  forall i, Q (".[" ++ str_of_nat i ++ "]").
Hypothesis Q_nested_index :
  forall path src i,
    Q path -> json_compatible src = true -> all_keys K src = true ->
    Q (path ++ "." ++ repr src ++ "[" ++ str_of_nat i ++ "]").
Hypothesis Q_key :
  forall path k, Q path -> K k = true -> Q (path ++ "." ++ k).
Hypothesis Q_key_index :
  forall path k i,
    Q path -> K k = true -> Q (path ++ "." ++ k ++ "[" ++ str_of_nat i ++ "]").
Hypothesis R_terminal :
  forall path v val,
    Q path -> json_compatible v = true ->
    json_dumps None None v = Return val ->
    R (Schema.terminal_line o path val) v.
Hypothesis R_member :
  forall path k v val,
    Q path -> K k = true -> json_compatible v = true ->
    json_dumps None None v = Return val ->
    R (Schema.member_line o path k val) v.

Lemma schema_gen_paths src :
  json_compatible src = true -> all_keys K src = true ->
  forall path, Q path -> emits (Schema._schema_gen o src path) R (leaves src).
Proof.
  induction src as [v L | items IH | items IH] using value_ind_deep;
    intros C A path HQ.
  - destruct (dumps_leaf v L C) as (val & E).
    assert (T : emits (Schema.append
                         (val <- json_dumps None None v ;;
                          Return (Schema.terminal_line o path val))) R [v]).
    { rewrite E. simpl. apply emits_append. now apply R_terminal. }
    destruct v; try discriminate L; exact T.
  - pose proof C as C0. pose proof A as A0.
    simpl in C, A. rewrite forallb_forall in C, A.
    cbn [Schema._schema_gen leaves].
    destruct (path =? EmptyString); apply emits_for_enumerate;
      intros item Hin i; apply IH; auto.
  - simpl in C, A. rewrite forallb_forall in C, A.
    cbn [Schema._schema_gen leaves]. apply emits_for_items.
    intros k v Hin. destruct (IH k v Hin) as [Hv Hsub].
    specialize (C (k, v) Hin). specialize (A (k, v) Hin).
    simpl in C, A. apply andb_true_iff in A as [Kk A].
    destruct v as [ | b | z | f | s | l | d | t r ];
      try (match type of C with json_compatible ?v = true =>
             destruct (dumps_leaf v eq_refl C) as (val & E);
             rewrite E; simpl; apply emits_append; now apply R_member
           end).
    + cbn [leaves]. apply emits_for_enumerate. intros item Hi i.
      simpl in C, A. rewrite forallb_forall in C, A.
      apply (Hsub l eq_refl item Hi); auto.
    + apply Hv; auto.
Qed.

End SchemaPaths.






(** *** Lines without a newline *)

Lemma one_line_spaces n : one_line (spaces n) = true.
Proof.
  induction n as [|n IH]; [reflexivity|].
  change (spaces (S n)) with (" " ++ spaces n). now rewrite one_line_app, IH.
Qed.

Lemma one_line_str_of_nat i : one_line (str_of_nat i) = true.
Proof.
  unfold str_of_nat, NilZero.string_of_uint.
  destruct (Nat.to_uint i); try reflexivity;
    match goal with
    | |- one_line (NilEmpty.string_of_uint ?d) = true => apply one_line_uint
    end.
Qed.

Lemma one_line_val_type_of val : one_line (Schema.val_type_of val) = true.
Proof.
  unfold Schema.val_type_of.
  destruct ((val =? "true") || (val =? "false")); [reflexivity|].
  destruct (val =? "null"); [reflexivity|].
  now destruct (isdigit _).
Qed.

Lemma one_line_join sep l :
  one_line sep = true -> Forall (fun t => one_line t = true) l ->
  one_line (join sep l) = true.
Proof.
  intros Hs. induction 1 as [|x r Hx Hr IH]; [reflexivity|].
  destruct r as [|y r']; [exact Hx|].
  change (join sep (x :: y :: r')) with (x ++ sep ++ join sep (y :: r')).
  now rewrite !one_line_app, Hx, Hs, IH.
Qed.

Lemma one_line_concat l :
  Forall (fun t => one_line t = true) l ->
  one_line (concat EmptyString l) = true.
Proof.
  induction 1 as [|x r Hx Hr IH]; [reflexivity|].
  destruct r as [|y r']; [exact Hx|].
  change (concat EmptyString (x :: y :: r'))
    with (x ++ EmptyString ++ concat EmptyString (y :: r')).
  now rewrite !one_line_app, Hx, IH.
Qed.

Lemma one_line_repr_char c :
  one_line (repr_char DQUOTE c) = true /\ one_line (repr_char SQUOTE c) = true.
Proof. destruct c as [[] [] [] [] [] [] [] []]; split; reflexivity. Qed.

Lemma one_line_repr_str s : one_line (repr_str s) = true.
Proof.
  unfold repr_str.
  set (b := str_exists (Ascii.eqb SQUOTE) s
            && negb (str_exists (Ascii.eqb DQUOTE) s)).
  set (quote := if b then DQUOTE else SQUOTE).
  assert (Hq : quote = DQUOTE \/ quote = SQUOTE)
    by (unfold quote; destruct b; auto).
  match goal with
  | |- context [String quote ?x ++ chr quote] =>
      change (String quote x ++ chr quote) with (chr quote ++ x ++ chr quote)
  end.
  rewrite !one_line_app.
  assert (Hc : one_line (chr quote) = true) by (destruct Hq as [->| ->]; reflexivity).
  rewrite Hc, andb_true_r. cbn [andb].
  apply one_line_concat. apply Forall_forall. intros t Ht.
  apply in_map_iff in Ht as (c & <- & _).
  destruct Hq as [->| ->]; apply one_line_repr_char.
Qed.

Lemma one_line_repr v :
  json_compatible v = true -> all_keys one_line v = true ->
  one_line (repr v) = true.
Proof.
  induction v as [ | b | z | f | s | items IH | items IH | t r ];
    intros C A.
  - reflexivity.
  - now destruct b.
  - apply one_line_str_of_int.
  - destruct f as [ | | | x]; try reflexivity. simpl in *.
    unfold float_text in C. apply andb_true_iff in C as [_ C].
    now apply one_line_float_chars.
  - apply one_line_repr_str.
  - simpl in C, A. rewrite forallb_forall in C, A. cbn [repr].
    rewrite !one_line_app. cbn [andb]. rewrite andb_true_r.
    apply one_line_join; [reflexivity|].
    apply Forall_forall. intros t Ht. apply in_map_iff in Ht as (x & <- & Hx).
    apply (list_all_In _ _ IH x Hx); auto.
  - simpl in C, A. rewrite forallb_forall in C, A. cbn [repr].
    rewrite !one_line_app. cbn [andb]. rewrite andb_true_r.
    apply one_line_join; [reflexivity|].
    apply Forall_forall. intros t Ht.
    apply in_map_iff in Ht as ([k x] & <- & Hx). cbn [fst snd].
    specialize (C _ Hx). specialize (A _ Hx). simpl in C, A.
    apply andb_true_iff in A as [_ A].
    rewrite !one_line_app, one_line_repr_str. cbn [andb].
    apply (list_all_items_In _ _ IH k x Hx); auto.
  - discriminate C.
Qed.

Lemma one_line_literal v val :
  json_compatible v = true -> json_dumps None None v = Return val ->
  one_line val = true.
Proof.
  intros C E.
  destruct (iterencode_encodes (make_encoder None None) v C 0) as (t & E' & H).
  unfold json_dumps in E. rewrite E' in E. injection E as <-.
  apply H. now repeat split.
Qed.

Lemma one_line_member_line o path k val :
  one_line path = true -> one_line k = true -> one_line val = true ->
  one_line (Schema.member_line o path k val) = true.
Proof.
  intros Hp Hk Hv. unfold Schema.member_line.
  rewrite !one_line_app, Hp, Hk, Hv. cbn [andb].
  destruct (types o); [|reflexivity].
  rewrite one_line_val_type_of, andb_true_r.
  destruct (_ <? 70)%nat; [apply one_line_spaces|reflexivity].
Qed.

Lemma one_line_terminal_line o path val :
  one_line path = true -> one_line val = true ->
  one_line (Schema.terminal_line o path val) = true.
Proof.
  intros Hp Hv. unfold Schema.terminal_line.
  assert (Hd : one_line (if path =? EmptyString then "." else path) = true)
    by now destruct (path =? EmptyString).
  rewrite !one_line_app, Hd, Hv. cbn [andb].
  assert (Ht : one_line (if types o then Schema.val_type_of val
                          else EmptyString) = true)
    by (destruct (types o); [apply one_line_val_type_of|reflexivity]).
  rewrite Ht, andb_true_r.
  destruct (_ <? 70)%nat; [apply one_line_spaces|reflexivity].
Qed.

(** X5. When no key of the document holds a newline character, no schema
    line does: the text returned by [create_schema] has exactly one
    physical line per leaf (strings, array renderings inside paths and
    literals are all escaped). *)
Theorem schema_lines_are_single_lines o data :
  json_compatible data = true -> all_keys one_line data = true ->
  exists ls,
    Schema.create_schema o data Schema.init = (Return (join (chr LF) ls), [])
    /\ Forall (fun line => one_line line = true) ls
    /\ List.length ls = List.length (leaves data).
Proof.
  intros C A.
  destruct (schema_gen_paths o one_line
              (fun path => one_line path = true)
              (fun line _ => one_line line = true)) with
    (src := data) (path := EmptyString) (st := Schema.init)
    as (ls & E & F); auto.
  - intros i. rewrite !one_line_app. now rewrite one_line_str_of_nat.
  - intros path src i Hp Cs As.
    rewrite !one_line_app, Hp, one_line_str_of_nat, (one_line_repr src Cs As).
    reflexivity.
  - intros path k Hp Hk. now rewrite !one_line_app, Hp, Hk.
  - intros path k i Hp Hk.
    now rewrite !one_line_app, Hp, Hk, one_line_str_of_nat.
  - intros path v val Hp Cv Ev. apply one_line_terminal_line; [assumption|].
    now apply (one_line_literal v).
  - intros path k v val Hp Hk Cv Ev. apply one_line_member_line; try assumption.
    now apply (one_line_literal v).
  - exists ls. unfold Schema.create_schema. rewrite E.
    split; [reflexivity|]. split.
    + clear E. induction F; constructor; auto.
    + now apply Forall2_length with (R := fun line _ => one_line line = true).
Qed.

Lemma schema_lines_are_single_lines_witness :
  json_compatible (PDict [("a", PStr ("x" ++ chr LF ++ "y"))]) = true /\
  all_keys one_line (PDict [("a", PStr ("x" ++ chr LF ++ "y"))]) = true /\
  exists ls,
    Schema.create_schema no_flags (PDict [("a", PStr ("x" ++ chr LF ++ "y"))])
      Schema.init = (Return (join (chr LF) ls), [])
    /\ Forall (fun line => one_line line = true) ls
    /\ List.length ls = 1.
Proof.
  split; [reflexivity|]. split; [reflexivity|].
  exact (schema_lines_are_single_lines no_flags
           (PDict [("a", PStr ("x" ++ chr LF ++ "y"))]) eq_refl eq_refl).
Defined.

(** *** How array elements are addressed *)







(** *** The type comment of each kind of value *)

Lemma digits_uint d :
  str_forall is_digit_char (NilEmpty.string_of_uint d) = true.
Proof.
  unfold str_forall. induction d; simpl; try reflexivity; exact IHd.
Qed.

Lemma only_digits_nonneg z : (0 <= z)%Z -> only_digits (str_of_int z).
Proof.
  intros Hz. unfold str_of_int, only_digits.
  destruct z as [|p|p]; [now split| |lia].
  cbn [Z.to_int NilZero.string_of_int]. unfold NilZero.string_of_uint.
  destruct (Pos.to_uint p) eqn:E; try (now split);
    (split; [discriminate|]); rewrite <- E; apply digits_uint.
Qed.

Lemma val_type_of_digits t :
  digits_modulo_point t -> t <> "true" -> t <> "false" -> t <> "null" ->
  Schema.val_type_of t = "// (number)".
Proof.
  intros D Nt Nf Nn.
  exact (proj1 (proj2 (proj2 (val_type_of_spec t))) Nt Nf Nn D).
Qed.

Lemma only_digits_not_word t w :
  only_digits t -> str_forall is_digit_char w = false -> t <> w.
Proof. intros [_ H] Hw ->. congruence. Qed.

Lemma no_point_with_point a b : no_point (a ++ "." ++ b) = false.
Proof.
  unfold no_point. rewrite str_forall_app.
  change ("." ++ b) with (String "." b).
  unfold str_forall at 2. cbn [list_ascii_of_string forallb].
  change (Ascii.eqb "." ".") with true. cbn [negb andb].
  apply andb_false_r.
Qed.

(** X8. With type comments on, the comment follows the kind of the value
    for null, booleans, strings and non-negative integers; a negative
    integer and the non-finite floats NaN, Infinity and -Infinity are
    annotated (string); a float printed as digits, a point and digits is
    annotated (number). *)
Theorem type_comment_by_kind :
  Schema.val_type_of (literal PNone) = "// (null)" /\
  (forall b, Schema.val_type_of (literal (PBool b)) = "// (boolean)") /\
  (forall s, Schema.val_type_of (literal (PStr s)) = "// (string)") /\
  (forall z, (0 <= z)%Z ->
     Schema.val_type_of (literal (PInt z)) = "// (number)") /\
  (forall z, (z < 0)%Z ->
     Schema.val_type_of (literal (PInt z)) = "// (string)") /\
  (forall f, f = FNan \/ f = FInf \/ f = FNegInf ->
     Schema.val_type_of (literal (PFloat f)) = "// (string)") /\
  (forall a b, only_digits (a ++ b) ->
     Schema.val_type_of (literal (PFloat (FFinite (a ++ "." ++ b))))
     = "// (number)").
Proof.
  split; [reflexivity|]. split; [now intros []|].
  split; [intros s; apply val_type_of_quoted|].
  split; [|split; [|split]].
  - intros z Hz. change (literal (PInt z)) with (str_of_int z).
    pose proof (only_digits_nonneg z Hz) as D.
    apply val_type_of_digits; [now left| | |];
      now apply only_digits_not_word.
  - intros z Hz. change (literal (PInt z)) with (str_of_int z).
    destruct z as [|p|p]; try lia. apply val_type_of_minus.
  - intros f [->|[->| ->]]; reflexivity.
  - intros a b D.
    change (literal (PFloat (FFinite (a ++ "." ++ b)))) with (a ++ "." ++ b).
    assert (W : forall w, no_point w = true -> a ++ "." ++ b <> w).
    { intros w Hw E. rewrite <- E, no_point_with_point in Hw. discriminate. }
    apply val_type_of_digits; [right; now exists a, b| | |];
      now apply W.
Qed.

Lemma type_comment_by_kind_witness :
  (0 <= 42)%Z /\ only_digits ("3" ++ "14") /\
  Schema.val_type_of (literal (PInt 42)) = "// (number)" /\
  Schema.val_type_of (literal (PFloat (FFinite "3.14"))) = "// (number)" /\
  Schema.val_type_of (literal (PFloat (FFinite "1e+16"))) = "// (string)".
Proof.
  destruct type_comment_by_kind as (_ & _ & _ & Hn & _ & _ & Hf).
  assert (D : only_digits ("3" ++ "14")) by (split; [discriminate|reflexivity]).
  split; [lia|]. split; [exact D|]. split; [apply Hn; lia|].
  split; [exact (Hf "3" "14" D)|reflexivity].
Defined.

(** ** More on [create_json] *)

Lemma encode_items_returns enc sep l :
  (forall v, In v l -> exists t, enc v = Return t) ->
  forall first, exists t, encode_items enc sep first l = Return t.
Proof.
  induction l as [|x r IH]; intros H first; cbn [encode_items].
  - eexists; reflexivity.
  - destruct (H x (or_introl eq_refl)) as (c & ->).
    destruct (IH (fun v Hv => H v (or_intror Hv)) false) as (cs & ->).
    cbn [obind]. eexists; reflexivity.
Qed.

Lemma encode_members_returns enc sep ksep l :
  (forall k v, In (k, v) l -> exists t, enc v = Return t) ->
  forall first, exists t, encode_members enc sep ksep first l = Return t.
Proof.
  induction l as [|[k x] r IH]; intros H first; cbn [encode_members].
  - eexists; reflexivity.
  - destruct (H k x (or_introl eq_refl)) as (c & ->).
    destruct (IH (fun k' v Hv => H k' v (or_intror Hv)) false) as (cs & ->).
    cbn [obind]. eexists; reflexivity.
Qed.

Lemma iterencode_returns e v :
  has_foreign v = false -> forall level, exists t, iterencode e level v = Return t.
Proof.
  induction v as [ | b | z | f | s | items IH | items IH | t r ];
    intros Hf level; try (eexists; reflexivity); try discriminate Hf.
  - destruct b; eexists; reflexivity.
  - simpl in Hf.
    assert (A : forall x, In x items -> has_foreign x = false).
    { intros x Hx. destruct (has_foreign x) eqn:E; [|reflexivity].
      assert (existsb has_foreign items = true)
        by (apply existsb_exists; now exists x).
      congruence. }
    destruct items as [|a rest]; [eexists; reflexivity|]. cbn [iterencode].
    destruct (encode_items_returns (iterencode e (S level))
                (item_separator e ++ opt_text (newline_indent e (S level)))
                (a :: rest)
                (fun v Hv => list_all_In _ _ IH v Hv (A v Hv) (S level)) true)
      as (body & ->).
    cbn [obind]. eexists; reflexivity.
  - simpl in Hf.
    assert (A : forall k x, In (k, x) items -> has_foreign x = false).
    { intros k x Hx. destruct (has_foreign x) eqn:E; [|reflexivity].
      assert (existsb (fun kv => has_foreign (snd kv)) items = true)
        by (apply existsb_exists; now exists (k, x)).
      congruence. }
    destruct items as [|a rest]; [eexists; reflexivity|]. cbn [iterencode].
    destruct (encode_members_returns (iterencode e (S level))
                (item_separator e ++ opt_text (newline_indent e (S level)))
                (key_separator e) (a :: rest)
                (fun k v Hv => list_all_items_In _ _ IH k v Hv
                                 (A k v Hv) (S level)) true)
      as (body & ->).
    cbn [obind]. eexists; reflexivity.
Qed.

Lemma lines_loop_TypeError_foreign o seps items :
  forall flat_list msg,
    Json.lines_loop o seps flat_list items = Raise (TypeError msg) ->
    existsb has_foreign items = true.
Proof.
  induction items as [|entry rest IH]; intros flat_list msg E;
    [discriminate E|].
  cbn [existsb].
  destruct (has_foreign entry) eqn:F; [reflexivity|]. cbn [orb].
  destruct (iterencode_returns (make_encoder seps None) entry F 0) as (t & D).
  fold (json_dumps seps None entry) in D.
  destruct entry; cbn [Json.lines_loop] in E; rewrite ?D in E;
    cbn [obind] in E;
    try (destruct (nulls o)); try (destruct (raw o));
    try (now apply IH in E); discriminate F.
Qed.

(** X10. A [TypeError] out of [create_json] always points to a
    non-serializable object: when [create_json] raises it, the value holds
    a foreign object somewhere. A value made of null, booleans, numbers,
    strings, arrays and objects never makes it raise [TypeError]. *)
Theorem create_json_TypeError_means_foreign o data :
  NonSerializableValueError (Json.create_json o data) ->
  has_foreign data = true.
Proof.
  intros (msg & E).
  destruct (has_foreign data) eqn:F; [reflexivity|]. exfalso.
  assert (D : forall seps ind, exists t, json_dumps seps ind data = Return t).
  { intros seps ind. now apply iterencode_returns. }
  destruct data as [ | b | z | f | s | items | items | t r ];
    try (destruct (D None None) as (t' & Et); unfold Json.create_json in E;
         rewrite Et in E; discriminate E);
    try discriminate F.
  - unfold Json.create_json in E. destruct (nulls o); discriminate E.
  - unfold Json.create_json in E. destruct (raw o); discriminate E.
  - unfold Json.create_json in E.
    destruct (negb (lines o)).
    + destruct (D (if compact o || lines o then Some (",", ":") else None)
                  (if compact o || lines o then None else Some 2))
        as (t' & Et).
      rewrite Et in E. discriminate E.
    + destruct (lines o && existsb Json.is_list items); [discriminate E|].
      destruct (Json.lines_loop o
                  (if compact o || lines o then Some (",", ":") else None)
                  EmptyString items) as [fl|ex] eqn:L;
        cbn [obind] in E; [discriminate E|].
      injection E as ->.
      apply lines_loop_TypeError_foreign in L. simpl in F. congruence.
  - unfold Json.create_json in E.
    destruct (D (if compact o || lines o then Some (",", ":") else None)
                (if compact o || lines o then None else Some 2))
      as (t' & Et).
    rewrite Et in E. discriminate E.
Qed.

Lemma create_json_TypeError_means_foreign_witness :
  NonSerializableValueError
    (Json.create_json with_lines
       (PList [PInt 1; PDict [("k", PForeign "set" "{1}")]])) /\
  has_foreign (PList [PInt 1; PDict [("k", PForeign "set" "{1}")]]) = true.
Proof.
  assert (H : NonSerializableValueError
                (Json.create_json with_lines
                   (PList [PInt 1; PDict [("k", PForeign "set" "{1}")]])))
    by (eexists; reflexivity).
  split; [exact H|].
  exact (create_json_TypeError_means_foreign with_lines _ H).
Defined.

Lemma one_line_quoted t : one_line (Json.quoted t) = one_line t.
Proof.
  unfold Json.quoted.
  change (String DQUOTE t ++ chr DQUOTE) with (chr DQUOTE ++ t ++ chr DQUOTE).
  rewrite !one_line_app. cbn [andb].
  change (one_line (chr DQUOTE)) with true. apply andb_true_r.
Qed.

Lemma dumps_flat_one_line seps data :
  json_compatible data = true ->
  flat_encoder (make_encoder seps None) ->
  exists t, json_dumps seps None data = Return t /\ one_line t = true.
Proof.
  intros C F.
  destruct (iterencode_encodes (make_encoder seps None) data C 0) as (t & E & H).
  exists t. split; [exact E|now apply H].
Qed.

(** X11. Apart from a container in pretty mode and an array in lines mode,
    the text that [create_json] returns for a JSON-compatible value is a
    single line: a scalar in any mode, an array in compact mode, an object
    in compact or lines mode. *)
Theorem create_json_single_line o data :
  json_compatible data = true -> multi_line_mode o data = false ->
  exists t, Json.create_json o data = Return t /\ one_line t = true.
Proof.
  intros C M.
  assert (Fd : flat_encoder (make_encoder None None)) by now repeat split.
  assert (Fc : flat_encoder (make_encoder (Some (",", ":")) None))
    by now repeat split.
  destruct data as [ | b | z | f | s | items | items | t r ];
    try discriminate C; try (now apply dumps_flat_one_line).
  - unfold Json.create_json. destruct (nulls o); now eexists.
  - unfold Json.create_json.
    destruct (raw o); eexists; (split; [reflexivity|]);
      rewrite ?one_line_quoted; apply escape_newlines_one_line.
  - simpl in M. apply orb_false_iff in M as [L Hc].
    apply negb_false_iff in Hc.
    unfold Json.create_json. rewrite L, Hc. cbn [orb negb].
    now apply dumps_flat_one_line.
  - simpl in M. apply negb_false_iff in M.
    unfold Json.create_json. rewrite M.
    now apply dumps_flat_one_line.
Qed.

Lemma create_json_single_line_witness :
  json_compatible nested_example = true /\
  multi_line_mode with_lines nested_example = false /\
  Json.create_json with_lines nested_example
  = Return ("{" ++ encode_basestring "a" ++ ":{" ++ encode_basestring "b"
              ++ ":1," ++ encode_basestring "c" ++ ":[true,null]}}") /\
  exists t, Json.create_json with_lines nested_example = Return t
            /\ one_line t = true.
Proof.
  split; [reflexivity|]. split; [reflexivity|]. split; [reflexivity|].
  exact (create_json_single_line with_lines nested_example eq_refl eq_refl).
Defined.

(** *** Trailing nulls in lines mode *)

Lemma lines_loop_app o seps a b :
  forall flat_list,
    Json.lines_loop o seps flat_list (a ++ b)
    = (acc <- Json.lines_loop o seps flat_list a ;;
       Json.lines_loop o seps acc b).
Proof.
  induction a as [|entry rest IH]; intros flat_list; [reflexivity|].
  cbn [app]. destruct entry; cbn [Json.lines_loop];
    try (destruct (nulls o); apply IH);
    try (destruct (raw o); apply IH);
    try apply IH;
    (destruct (json_dumps seps None _); cbn [obind]; [apply IH|reflexivity]).
Qed.

Lemma lines_loop_nulls o seps n :
  nulls o = false ->
  forall flat_list,
    Json.lines_loop o seps flat_list (repeat PNone n)
    = Return (flat_list ++ unlines (repeat EmptyString n)).
Proof.
  intros N. induction n as [|n IH]; intros flat_list; simpl.
  - now rewrite app_empty_r.
  - rewrite N, IH. now rewrite app_assoc_str.
Qed.

Lemma rstrip_blank_lines s n :
  rstrip (s ++ unlines (repeat EmptyString n)) = rstrip s.
Proof.
  revert s. induction n as [|n IH]; intros s; simpl.
  - now rewrite app_empty_r.
  - change (String LF (unlines (repeat EmptyString n)))
      with (chr LF ++ unlines (repeat EmptyString n)).
    rewrite <- app_assoc_str, IH. now apply rstrip_snoc_space.
Qed.

Lemma includes_list_nulls items n :
  existsb Json.is_list (items ++ repeat PNone n)
  = existsb Json.is_list items.
Proof.
  rewrite existsb_app.
  assert (E : existsb Json.is_list (repeat PNone n) = false)
    by (induction n; simpl; auto).
  rewrite E. apply orb_false_r.
Qed.

(** X12. In lines mode without the nulls option, null elements at the end
    of the root array leave no trace: the array with any number of nulls
    appended gives the same result (text or exception) as the array
    itself, so the number of output lines can be smaller than the number
    of elements. *)
Theorem lines_mode_drops_trailing_nulls o items n :
  lines o = true -> nulls o = false ->
  Json.create_json o (PList (items ++ repeat PNone n))
  = Json.create_json o (PList items).
Proof.
  intros L N. unfold Json.create_json.
  rewrite L, orb_true_r, includes_list_nulls. cbn [negb andb].
  destruct (existsb Json.is_list items); [reflexivity|].
  rewrite lines_loop_app.
  destruct (Json.lines_loop o (Some (",", ":")) EmptyString items)
    as [acc|e]; cbn [obind]; [|reflexivity].
  rewrite (lines_loop_nulls o _ n N). cbn [obind].
  now rewrite rstrip_blank_lines.
Qed.

Lemma lines_mode_drops_trailing_nulls_witness :
  lines with_lines = true /\ nulls with_lines = false /\
  Json.create_json with_lines (PList [PInt 1; PNone; PInt 2; PNone; PNone])
  = Return ("1" ++ chr LF ++ chr LF ++ "2").
Proof.
  split; [reflexivity|]. split; [reflexivity|].
  change [PInt 1; PNone; PInt 2; PNone; PNone]
    with ([PInt 1; PNone; PInt 2] ++ repeat PNone 2)%list.
  rewrite (lines_mode_drops_trailing_nulls with_lines
             [PInt 1; PNone; PInt 2] 2 eq_refl eq_refl).
  reflexivity.
Defined.

(** *** Options read by [create_json] *)

Lemma lines_loop_ext o o' seps items :
  nulls o = nulls o' -> raw o = raw o' ->
  forall flat_list,
    Json.lines_loop o seps flat_list items
    = Json.lines_loop o' seps flat_list items.
Proof.
  intros N Rw. induction items as [|entry rest IH]; intros flat_list;
    [reflexivity|].
  destruct entry; cbn [Json.lines_loop]; rewrite <- ?N, <- ?Rw;
    try (destruct (nulls o); apply IH);
    try (destruct (raw o); apply IH);
    try apply IH;
    (destruct (json_dumps seps None _); cbn [obind]; [apply IH|reflexivity]).
Qed.

(** X13. [create_json] reads four things from the options: [lines],
    [nulls], [raw], and whether [compact] or [lines] is set; in particular
    [compact] is without effect once [lines] is set, and [mono], [schema]
    and [types] never matter. *)
Theorem create_json_option_dependence o o' data :
  lines o = lines o' -> nulls o = nulls o' -> raw o = raw o' ->
  compact o || lines o = compact o' || lines o' ->
  Json.create_json o data = Json.create_json o' data.
Proof.
  intros L N Rw Cl. unfold Json.create_json.
  rewrite <- Cl, <- L, <- N, <- Rw.
  destruct data; try reflexivity.
  destruct (negb (lines o)); [reflexivity|].
  destruct (lines o && existsb Json.is_list items); [reflexivity|].
  now rewrite (lines_loop_ext o o' _ items N Rw).
Qed.

Lemma create_json_option_dependence_witness :
  Json.create_json with_lines nested_example
  = Json.create_json
      {| compact := true; nulls := false; raw := false; lines := true;
         mono := true; schema := true; types := true |} nested_example.
Proof.
  apply create_json_option_dependence; reflexivity.
Defined.

(** ** [JelloTheme.set_colors] *)

Lemma length_four {A} (l : list A) :
  List.length l = 4 -> exists a b c d, l = [a; b; c; d].
Proof.
  destruct l as [|a [|b [|c [|d [|e l]]]]]; try discriminate.
  intros _. now exists a, b, c, d.
Qed.

Lemma existsb_negb {A} (f : A -> bool) l :
  existsb (fun x => negb (f x)) l = negb (forallb f l).
Proof.
  induction l as [|x r IH]; [reflexivity|]. cbn [existsb forallb].
  rewrite IH. now rewrite negb_andb.
Qed.

Lemma effective_colors_spec env :
  (bad_env env = true /\ effective_colors env = JelloTheme.defaults
   /\ snd (JelloTheme.read_env env) = true) \/
  (bad_env env = false /\ snd (JelloTheme.read_env env) = false /\
   effective_colors env
   = match env with
     | Some s => if s =? EmptyString then JelloTheme.defaults else split "," s
     | None => JelloTheme.defaults
     end).
Proof.
  unfold effective_colors, bad_env, JelloTheme.read_env, JelloTheme.truthy.
  destruct env as [s|]; [|right; now repeat split].
  destruct (s =? EmptyString); cbn [negb andb]; [right; now repeat split|].
  cbn [fst snd].
  assert (E : existsb (fun color => negb (str_in color JelloTheme.env_color_names))
                (split "," s)
              = negb (forallb (fun c => str_in c JelloTheme.env_color_names)
                        (split "," s))).
  { apply existsb_negb. }
  rewrite E.
  destruct (negb (List.length (split "," s) =? 4)%nat
            || negb (forallb (fun c => str_in c JelloTheme.env_color_names)
                       (split "," s)));
    [left|right]; now repeat split.
Qed.

Lemma effective_colors_four env :
  exists e0 e1 e2 e3,
    effective_colors env = [e0; e1; e2; e3] /\
    Forall (fun e => str_in e JelloTheme.env_color_names = true) [e0; e1; e2; e3].
Proof.
  destruct (effective_colors_spec env) as [(_ & E & _)|(B & _ & E)].
  - rewrite E. exists "default", "default", "default", "default".
    split; [reflexivity|]. repeat constructor.
  - destruct env as [s|].
    + unfold bad_env in B.
      destruct (s =? EmptyString).
      * rewrite E. exists "default", "default", "default", "default".
        split; [reflexivity|]. repeat constructor.
      * cbn [negb andb] in B. apply orb_false_iff in B as [Bl Bc].
        apply negb_false_iff in Bl, Bc. apply Nat.eqb_eq in Bl.
        rewrite E. destruct (length_four _ Bl) as (a & b & c & d & El).
        exists a, b, c, d. split; [exact El|].
        rewrite El in Bc. rewrite forallb_forall in Bc.
        apply Forall_forall. exact Bc.
    + rewrite E. exists "default", "default", "default", "default".
      split; [reflexivity|]. repeat constructor.
Qed.

Lemma from_env_pick prefix colors i e c old :
  nth_error colors i = Some e ->
  JelloTheme.from_env prefix colors i (JelloTheme.from_opts prefix c old)
  = Some (pick prefix e c old).
Proof.
  intros E. unfold JelloTheme.from_env, pick, JelloTheme.from_opts. rewrite E.
  destruct (e =? "default"); cbn [negb]; [|reflexivity].
  destruct c as [s|]; [|reflexivity].
  unfold JelloTheme.truthy. now destruct (s =? EmptyString).
Qed.

Lemma set_colors_eval env c th e0 e1 e2 e3 :
  effective_colors env = [e0; e1; e2; e3] ->
  JelloTheme.set_colors true env c th
  = Some ({| JelloTheme.Name :=
               pick "bold " e0 (JelloTheme.keyname_color c) (JelloTheme.Name th);
             JelloTheme.Keyword :=
               pick EmptyString e1 (JelloTheme.keyword_color c)
                 (JelloTheme.Keyword th);
             JelloTheme.Number :=
               pick EmptyString e2 (JelloTheme.number_color c)
                 (JelloTheme.Number th);
             JelloTheme.String_ :=
               pick EmptyString e3 (JelloTheme.string_color c)
                 (JelloTheme.String_ th) |},
          if bad_env env
          then [JelloTheme.warning ++ chr LF] else []) /\
  JelloTheme.set_colors false env c th
  = Some (th, if bad_env env then [JelloTheme.warning ++ chr LF] else []).
Proof.
  intros E.
  assert (W : snd (JelloTheme.read_env env) = bad_env env).
  { destruct (effective_colors_spec env) as [(B & _ & S)|(B & S & _)];
      now rewrite B, S. }
  unfold JelloTheme.set_colors. unfold effective_colors in E.
  destruct (JelloTheme.read_env env) as [l0 ie]. cbn [fst snd] in *.
  subst ie. rewrite E. cbn [JelloTheme.Name JelloTheme.Keyword
    JelloTheme.Number JelloTheme.String_].
  rewrite !(from_env_pick _ [e0; e1; e2; e3] _ _ _ _) by reflexivity.
  now split.
Qed.

(** X14. [set_colors] never fails, whatever the environment variable holds
    (the colour list it indexes always has four entries), and with pygments
    present each style follows the precedence: colour of [JELLO_COLORS]
    unless [default], else colour attribute of [opts] unless unset, else the
    style already in the theme. One warning is printed when the variable
    holds a non-empty text that is not four known colour names, and nothing
    otherwise: an empty value counts as unset. *)
Theorem set_colors_precedence env c th :
  exists e0 e1 e2 e3,
    effective_colors env = [e0; e1; e2; e3] /\
    JelloTheme.set_colors true env c th
    = Some ({| JelloTheme.Name :=
                 pick "bold " e0 (JelloTheme.keyname_color c) (JelloTheme.Name th);
               JelloTheme.Keyword :=
                 pick EmptyString e1 (JelloTheme.keyword_color c)
                   (JelloTheme.Keyword th);
               JelloTheme.Number :=
                 pick EmptyString e2 (JelloTheme.number_color c)
                   (JelloTheme.Number th);
               JelloTheme.String_ :=
                 pick EmptyString e3 (JelloTheme.string_color c)
                   (JelloTheme.String_ th) |},
            if bad_env env
            then [JelloTheme.warning ++ chr LF] else []) /\
    JelloTheme.set_colors false env c th
    = Some (th, if bad_env env then [JelloTheme.warning ++ chr LF] else []).
Proof.
  destruct (effective_colors_four env) as (e0 & e1 & e2 & e3 & E & _).
  exists e0, e1, e2, e3. split; [exact E|].
  now apply set_colors_eval.
Qed.

Lemma set_colors_precedence_witness :
  JelloTheme.set_colors true (Some "red,default,default,white")
    {| JelloTheme.keyname_color := Some "green";
       JelloTheme.keyword_color := Some "cyan";
       JelloTheme.number_color := None;
       JelloTheme.string_color := None |} JelloTheme.theme
  = Some ({| JelloTheme.Name := "bold ansired";
             JelloTheme.Keyword := "ansicyan";
             JelloTheme.Number := "ansimagenta";
             JelloTheme.String_ := "ansiwhite" |}, []).
Proof.
  destruct (set_colors_precedence (Some "red,default,default,white")
              {| JelloTheme.keyname_color := Some "green";
                 JelloTheme.keyword_color := Some "cyan";
                 JelloTheme.number_color := None;
                 JelloTheme.string_color := None |} JelloTheme.theme)
    as (e0 & e1 & e2 & e3 & E & H & _).
  vm_compute in E. injection E as <- <- <- <-. rewrite H. reflexivity.
Defined.

(** X15. A non-empty value of the environment variable that is not four
    known colour names is dropped as a whole: one warning is printed and the
    theme is the one obtained with the variable unset, also for the entries
    of the variable that were valid. An empty value is taken as unset: same
    theme, no warning. *)
Theorem set_colors_rejects_env_as_a_whole p env c th :
  (bad_env env = true ->
   exists t,
     JelloTheme.set_colors p None c th = Some (t, []) /\
     JelloTheme.set_colors p env c th
     = Some (t, [JelloTheme.warning ++ chr LF])) /\
  JelloTheme.set_colors p (Some EmptyString) c th
  = JelloTheme.set_colors p None c th.
Proof.
  split; [|reflexivity].
  intros B.
  destruct (effective_colors_spec env) as [(_ & E & _)|(B' & _)];
    [|congruence].
  destruct (set_colors_eval None c th _ _ _ _ eq_refl) as (Hd & Hd').
  destruct (set_colors_eval env c th _ _ _ _ E) as (He & He').
  rewrite B in He, He'. cbn [bad_env] in Hd, Hd'.
  destruct p; eexists; split; eassumption.
Qed.

Lemma set_colors_rejects_env_as_a_whole_witness :
  bad_env (Some "red,green,blue") = true /\
  bad_env (Some "red,green,blue,pink") = true /\
  bad_env (Some EmptyString) = false /\
  JelloTheme.set_colors true (Some "red,green,blue,pink")
    {| JelloTheme.keyname_color := None; JelloTheme.keyword_color := None;
       JelloTheme.number_color := None; JelloTheme.string_color := None |}
    JelloTheme.theme
  = Some (JelloTheme.theme, [JelloTheme.warning ++ chr LF]) /\
  JelloTheme.set_colors true (Some EmptyString)
    {| JelloTheme.keyname_color := None; JelloTheme.keyword_color := None;
       JelloTheme.number_color := None; JelloTheme.string_color := None |}
    JelloTheme.theme
  = Some (JelloTheme.theme, []).
Proof.
  split; [reflexivity|]. split; [reflexivity|]. split; [reflexivity|].
  destruct (set_colors_rejects_env_as_a_whole true
              (Some "red,green,blue,pink")
              {| JelloTheme.keyname_color := None;
                 JelloTheme.keyword_color := None;
                 JelloTheme.number_color := None;
                 JelloTheme.string_color := None |}
              JelloTheme.theme) as (R & Z).
  destruct (R eq_refl) as (t & E0 & E).
  split; [|rewrite Z; reflexivity].
  rewrite E. vm_compute in E0. now injection E0 as <-.
Defined.

Lemma pick_idem prefix e c old :
  pick prefix e c (pick prefix e c old) = pick prefix e c old.
Proof.
  unfold pick. destruct (e =? "default"); [|reflexivity].
  destruct c as [k|]; [|reflexivity]. now destruct (k =? EmptyString).
Qed.

(** X16. [set_colors] is idempotent: called again on the theme it has just
    produced, with the same environment and options, it returns that theme
    unchanged (and prints the same). *)
Theorem set_colors_idempotent p env c th t1 err :
  JelloTheme.set_colors p env c th = Some (t1, err) ->
  JelloTheme.set_colors p env c t1 = Some (t1, err).
Proof.
  intros H.
  destruct (effective_colors_four env) as (e0 & e1 & e2 & e3 & E & _).
  destruct (set_colors_eval env c th _ _ _ _ E) as (H1 & H1').
  destruct (set_colors_eval env c t1 _ _ _ _ E) as (H2 & H2').
  destruct p.
  - rewrite H1 in H. injection H as <- <-. rewrite H2.
    cbn [JelloTheme.Name JelloTheme.Keyword JelloTheme.Number
           JelloTheme.String_].
    now rewrite !pick_idem.
  - rewrite H1' in H. injection H as <- <-. exact H2'.
Qed.

Lemma set_colors_idempotent_witness :
  JelloTheme.set_colors true (Some "default,yellow,default,default")
    {| JelloTheme.keyname_color := Some "red"; JelloTheme.keyword_color := None;
       JelloTheme.number_color := None; JelloTheme.string_color := None |}
    {| JelloTheme.Name := "bold ansired"; JelloTheme.Keyword := "ansiyellow";
       JelloTheme.Number := "ansimagenta"; JelloTheme.String_ := "ansigreen" |}
  = Some ({| JelloTheme.Name := "bold ansired";
             JelloTheme.Keyword := "ansiyellow";
             JelloTheme.Number := "ansimagenta";
             JelloTheme.String_ := "ansigreen" |}, []).
Proof.
  apply (set_colors_idempotent true (Some "default,yellow,default,default")
           {| JelloTheme.keyname_color := Some "red";
              JelloTheme.keyword_color := None;
              JelloTheme.number_color := None;
              JelloTheme.string_color := None |} JelloTheme.theme).
  reflexivity.
Defined.

(** *** Themes made of known colours *)

Lemma str_in_In x l : str_in x l = true -> In x l.
Proof.
  unfold str_in. intros H. apply existsb_exists in H as (y & Hy & E).
  apply String.eqb_eq in E. now subst.
Qed.

Lemma env_color_cases e :
  str_in e JelloTheme.env_color_names = true ->
  e = "default" \/ In e color_names.
Proof.
  intros H. apply str_in_In in H.
  unfold JelloTheme.env_color_names in H. unfold color_names.
  cbn [In] in *. intuition.
Qed.

Lemma color_name_nonempty c :
  In c color_names -> (c =? EmptyString) = false.
Proof.
  unfold color_names. cbn [In]. intuition; subst; reflexivity.
Qed.

Lemma pick_ok prefix e c old :
  str_in e JelloTheme.env_color_names = true ->
  color_opt_ok c -> style_ok prefix old ->
  style_ok prefix (pick prefix e c old).
Proof.
  intros He Hc Ho. unfold pick.
  destruct (env_color_cases e He) as [->|Hin].
  - cbn [String.eqb Ascii.eqb Bool.eqb]. destruct c as [k|]; [|exact Ho].
    simpl in Hc. rewrite (color_name_nonempty k Hc). now exists k.
  - destruct (String.eqb_spec e "default") as [->|_]; [|now exists e].
    destruct c as [k|]; [|exact Ho].
    simpl in Hc. rewrite (color_name_nonempty k Hc). now exists k.
Qed.

Lemma picked_theme_ok e0 e1 e2 e3 c th :
  Forall (fun e => str_in e JelloTheme.env_color_names = true)
    [e0; e1; e2; e3] ->
  color_opt_ok (JelloTheme.keyname_color c) ->
  color_opt_ok (JelloTheme.keyword_color c) ->
  color_opt_ok (JelloTheme.number_color c) ->
  color_opt_ok (JelloTheme.string_color c) ->
  theme_ok th ->
  theme_ok
    {| JelloTheme.Name :=
         pick "bold " e0 (JelloTheme.keyname_color c) (JelloTheme.Name th);
       JelloTheme.Keyword :=
         pick EmptyString e1 (JelloTheme.keyword_color c)
           (JelloTheme.Keyword th);
       JelloTheme.Number :=
         pick EmptyString e2 (JelloTheme.number_color c) (JelloTheme.Number th);
       JelloTheme.String_ :=
         pick EmptyString e3 (JelloTheme.string_color c)
           (JelloTheme.String_ th) |}.
Proof.
  intros F C0 C1 C2 C3 (Tn & Tk & Tu & Ts).
  inversion F as [|? ? F0 F']; subst.
  inversion F' as [|? ? F1 F'']; subst.
  inversion F'' as [|? ? F2 F''']; subst.
  inversion F''' as [|? ? F3 _]; subst.
  repeat split; cbn [JelloTheme.Name JelloTheme.Keyword JelloTheme.Number
                       JelloTheme.String_]; now apply pick_ok.
Qed.

(** X17. [set_colors] keeps a theme made of known colours that way: when
    the colour attributes of [opts] are unset or among the sixteen colour
    names, then for every value of [JELLO_COLORS], well-formed or not, each
    style of the new theme is [ansi] followed by one of the sixteen names
    ([bold ansi] for key names). *)
Theorem set_colors_keeps_theme_valid env c th :
  theme_ok th ->
  color_opt_ok (JelloTheme.keyname_color c) ->
  color_opt_ok (JelloTheme.keyword_color c) ->
  color_opt_ok (JelloTheme.number_color c) ->
  color_opt_ok (JelloTheme.string_color c) ->
  exists t err,
    JelloTheme.set_colors true env c th = Some (t, err) /\ theme_ok t.
Proof.
  intros T C0 C1 C2 C3.
  destruct (effective_colors_four env) as (e0 & e1 & e2 & e3 & E & F).
  destruct (set_colors_eval env c th _ _ _ _ E) as (H & _).
  eexists _, _. split; [exact H|].
  now apply picked_theme_ok.
Qed.

Lemma theme_ok_default : theme_ok JelloTheme.theme.
Proof.
  repeat split; [exists "blue"|exists "brightblack"|exists "magenta"
                 |exists "green"]; (split; [|reflexivity]);
    unfold color_names; cbn [In]; intuition.
Qed.

Lemma set_colors_keeps_theme_valid_witness :
  theme_ok JelloTheme.theme /\
  exists t err,
    JelloTheme.set_colors true (Some "red,,blue")
      {| JelloTheme.keyname_color := Some "cyan";
         JelloTheme.keyword_color := None;
         JelloTheme.number_color := None;
         JelloTheme.string_color := None |} JelloTheme.theme
    = Some (t, err) /\ theme_ok t.
Proof.
  split; [apply theme_ok_default|].
  apply (set_colors_keeps_theme_valid _ _ _ theme_ok_default);
    [|exact I|exact I|exact I].
  cbn. do 6 right. now left.
Defined.

(** ** The option checks of [pyquery] *)

Lemma check_fold {A} (bad : value -> bool) (unset : A -> A) l :
  (forall a, unset (unset a) = unset a) ->
  forall st : A * bool,
    fold_left (fun st x => if bad x then (unset (fst st), true) else st) l st
    = if existsb bad l then (unset (fst st), true) else st.
Proof.
  intros Hu. induction l as [|x r IH]; intros st; [reflexivity|].
  cbn [fold_left existsb]. rewrite IH. destruct (bad x); cbn [orb fst].
  - rewrite Hu. now destruct (existsb bad r).
  - reflexivity.
Qed.

Lemma check_options_eval o :
  Pyquery.check_options o
  = if options_ok o then (o, false) else (Pyquery.unset_options o, true).
Proof.
  unfold Pyquery.check_options.
  rewrite (check_fold
             (fun x => negb (Pyquery.is_bool x) && negb (Pyquery.is_none x))
             Pyquery.unset_options) by reflexivity.
  unfold options_ok, option_ok. cbn [existsb fst].
  destruct (Pyquery.is_bool (Pyquery.compact o)),
           (Pyquery.is_none (Pyquery.compact o)),
           (Pyquery.is_bool (Pyquery.raw o)),
           (Pyquery.is_none (Pyquery.raw o)),
           (Pyquery.is_bool (Pyquery.lines o)),
           (Pyquery.is_none (Pyquery.lines o)); cbn [negb andb orb];
    try reflexivity;
    destruct (Pyquery.is_bool (Pyquery.nulls o)),
             (Pyquery.is_none (Pyquery.nulls o)),
             (Pyquery.is_bool (Pyquery.mono o)),
             (Pyquery.is_none (Pyquery.mono o)),
             (Pyquery.is_bool (Pyquery.schema o)),
             (Pyquery.is_none (Pyquery.schema o)); reflexivity.
Qed.

Lemma check_colors_eval o :
  Pyquery.check_colors o
  = if colors_ok o then (o, false) else (Pyquery.unset_colors o, true).
Proof.
  unfold Pyquery.check_colors.
  rewrite (check_fold
             (fun x => negb (Pyquery.in_valid_colors x)
                       && negb (Pyquery.is_none x))
             Pyquery.unset_colors) by reflexivity.
  unfold colors_ok, color_ok. cbn [existsb fst].
  destruct (Pyquery.in_valid_colors (Pyquery.keyname_color o)),
           (Pyquery.is_none (Pyquery.keyname_color o)),
           (Pyquery.in_valid_colors (Pyquery.keyword_color o)),
           (Pyquery.is_none (Pyquery.keyword_color o)),
           (Pyquery.in_valid_colors (Pyquery.number_color o)),
           (Pyquery.is_none (Pyquery.number_color o)),
           (Pyquery.in_valid_colors (Pyquery.string_color o)),
           (Pyquery.is_none (Pyquery.string_color o)); reflexivity.
Qed.

Lemma check_conf_eval conf_file o :
  Pyquery.check_conf conf_file o
  = ((if colors_ok o then (fun x => x) else Pyquery.unset_colors)
       ((if options_ok o then (fun x => x) else Pyquery.unset_options) o),
     List.app
       (if options_ok o then []
        else [Pyquery.options_warning conf_file ++ chr LF])
       (if colors_ok o then []
        else [Pyquery.colors_warning conf_file ++ chr LF])).
Proof.
  unfold Pyquery.check_conf. rewrite check_options_eval.
  destruct (options_ok o) eqn:O; rewrite check_colors_eval.
  - now destruct (colors_ok o).
  - change (colors_ok (Pyquery.unset_options o)) with (colors_ok o).
    now destruct (colors_ok o).
Qed.

(** X18. The check of the six options in [pyquery] is all or nothing:
    when each of [compact], [raw], [lines], [nulls], [mono], [schema] is
    [None] or a [bool] nothing changes; as soon as one of them is anything
    else, all six become [False], the valid ones included. Afterwards all
    six are [None] or [bool]. [types] is not among them: it is returned as
    it came, whatever it is. *)
Theorem pyquery_options_all_or_nothing conf_file o :
  let r := fst (Pyquery.check_conf conf_file o) in
  options_ok r = true /\
  Pyquery.types r = Pyquery.types o /\
  (options_ok o = true ->
     Pyquery.compact r = Pyquery.compact o /\ Pyquery.raw r = Pyquery.raw o /\
     Pyquery.lines r = Pyquery.lines o /\ Pyquery.nulls r = Pyquery.nulls o /\
     Pyquery.mono r = Pyquery.mono o /\ Pyquery.schema r = Pyquery.schema o) /\
  (options_ok o = false ->
     Pyquery.compact r = PBool false /\ Pyquery.raw r = PBool false /\
     Pyquery.lines r = PBool false /\ Pyquery.nulls r = PBool false /\
     Pyquery.mono r = PBool false /\ Pyquery.schema r = PBool false).
Proof.
  cbv zeta. rewrite check_conf_eval. cbn [fst].
  destruct (options_ok o) eqn:O, (colors_ok o);
    (split; [try exact O; reflexivity|]);
    (split; [reflexivity|]);
    (split; [intros H|intros H]); try discriminate H; now repeat split.
Qed.

Lemma pyquery_options_all_or_nothing_witness :
  let o := {| Pyquery.initialize := PNone; Pyquery.version_info := PNone;
              Pyquery.helpme := PNone;
              Pyquery.compact := PBool true; Pyquery.nulls := PNone;
              Pyquery.raw := PInt 1; Pyquery.lines := PBool true;
              Pyquery.mono := PNone; Pyquery.schema := PNone;
              Pyquery.types := PStr "yes";
              Pyquery.keyname_color := PNone; Pyquery.keyword_color := PNone;
              Pyquery.number_color := PNone; Pyquery.string_color := PNone |} in
  options_ok o = false /\
  Pyquery.compact (fst (Pyquery.check_conf "f" o)) = PBool false /\
  Pyquery.lines (fst (Pyquery.check_conf "f" o)) = PBool false /\
  Pyquery.types (fst (Pyquery.check_conf "f" o)) = PStr "yes".
Proof.
  intros o. split; [reflexivity|].
  destruct (pyquery_options_all_or_nothing "f" o) as (_ & T & _ & F).
  destruct (F eq_refl) as (C & _ & L & _).
  now repeat split.
Defined.

(** X19. The check of the four colour attributes in [pyquery] is all or
    nothing too: when each is [None] or one of the sixteen colour names
    nothing changes, otherwise all four become [None]. Afterwards each is
    [None] or a known colour name (the name [default], which
    [JELLO_COLORS] accepts, is rejected here). *)
Theorem pyquery_colors_all_or_nothing conf_file o :
  let r := fst (Pyquery.check_conf conf_file o) in
  colors_ok r = true /\
  (colors_ok o = true ->
     Pyquery.keyname_color r = Pyquery.keyname_color o /\
     Pyquery.keyword_color r = Pyquery.keyword_color o /\
     Pyquery.number_color r = Pyquery.number_color o /\
     Pyquery.string_color r = Pyquery.string_color o) /\
  (colors_ok o = false ->
     Pyquery.keyname_color r = PNone /\ Pyquery.keyword_color r = PNone /\
     Pyquery.number_color r = PNone /\ Pyquery.string_color r = PNone).
Proof.
  cbv zeta. rewrite check_conf_eval. cbn [fst].
  destruct (colors_ok o) eqn:C, (options_ok o);
    (split; [try exact C; reflexivity|]);
    (split; [intros H|intros H]); try discriminate H; now repeat split.
Qed.

Lemma pyquery_colors_all_or_nothing_witness :
  let o := {| Pyquery.initialize := PNone; Pyquery.version_info := PNone;
              Pyquery.helpme := PNone;
              Pyquery.compact := PNone; Pyquery.nulls := PNone;
              Pyquery.raw := PNone; Pyquery.lines := PNone;
              Pyquery.mono := PNone; Pyquery.schema := PNone;
              Pyquery.types := PNone;
              Pyquery.keyname_color := PStr "red";
              Pyquery.keyword_color := PStr "default";
              Pyquery.number_color := PNone; Pyquery.string_color := PNone |} in
  colors_ok o = false /\
  Pyquery.keyname_color (fst (Pyquery.check_conf "f" o)) = PNone.
Proof.
  intros o. split; [reflexivity|].
  destruct (pyquery_colors_all_or_nothing "f" o) as (_ & _ & F).
  now destruct (F eq_refl) as (K & _).
Defined.

(** X20. The checks of [pyquery] warn exactly about what they reset: one
    message on stderr when the options were reset and one when the colours
    were; and they are idempotent: run on their own result they change
    nothing and print nothing. *)
Theorem pyquery_checks_warn_and_settle conf_file o :
  snd (Pyquery.check_conf conf_file o)
  = List.app
      (if options_ok o then []
       else [Pyquery.options_warning conf_file ++ chr LF])
      (if colors_ok o then []
       else [Pyquery.colors_warning conf_file ++ chr LF]) /\
  Pyquery.check_conf conf_file (fst (Pyquery.check_conf conf_file o))
  = (fst (Pyquery.check_conf conf_file o), []).
Proof.
  split; [now rewrite check_conf_eval|].
  rewrite (check_conf_eval conf_file o). cbn [fst].
  rewrite check_conf_eval.
  destruct (options_ok o) eqn:O, (colors_ok o) eqn:C;
    cbv beta;
    repeat match goal with
    | |- context [options_ok ?x] =>
        first [ change (options_ok x) with (options_ok o); rewrite O
              | change (options_ok x) with true ]
    | |- context [colors_ok ?x] =>
        first [ change (colors_ok x) with (colors_ok o); rewrite C
              | change (colors_ok x) with true ]
    end; reflexivity.
Qed.

Lemma color_attr_ok v : color_ok v = true -> color_opt_ok (color_attr v).
Proof.
  unfold color_ok. destruct v; try discriminate; try exact (fun _ => I).
  cbn [Pyquery.in_valid_colors Pyquery.is_none orb color_attr color_opt_ok].
  rewrite orb_false_r. apply str_in_In.
Qed.

(** X21. The two steps compose: with the colour attributes as the checks
    of [pyquery] leave them, [set_colors] turns the class theme into a
    theme of known colours, whatever the configuration file had set and
    whatever [JELLO_COLORS] holds; it does not fail. *)
Theorem checked_colors_give_valid_theme conf_file o env :
  exists t err,
    JelloTheme.set_colors true env
      (color_attrs (fst (Pyquery.check_conf conf_file o))) JelloTheme.theme
    = Some (t, err)
    /\ theme_ok t.
Proof.
  set (r := fst (Pyquery.check_conf conf_file o)).
  assert (C : colors_ok r = true).
  { unfold r. rewrite check_conf_eval. cbn [fst].
    destruct (colors_ok o) eqn:C, (options_ok o); try exact C; reflexivity. }
  unfold colors_ok in C.
  apply andb_true_iff in C as [C C3]. apply andb_true_iff in C as [C C2].
  apply andb_true_iff in C as [C0 C1].
  destruct (effective_colors_four env) as (e0 & e1 & e2 & e3 & E & F).
  destruct (set_colors_eval env (color_attrs r) JelloTheme.theme _ _ _ _ E)
    as (H & _).
  eexists _, _. split; [exact H|].
  apply picked_theme_ok; try assumption; try apply theme_ok_default;
    now apply color_attr_ok.
Qed.

(** ** [load_json] *)

Lemma loads_each_all loads lines vs :
  Forall2 (fun line v => loads line = Return v) lines vs ->
  loads_each loads lines = Return vs.
Proof.
  induction 1 as [|line v lines vs E F IH]; [reflexivity|].
  cbn [loads_each]. rewrite E, IH. reflexivity.
Qed.

Lemma loads_each_first_failure loads before line after e :
  (forall l, In l before -> exists v, loads l = Return v) ->
  loads line = Raise e ->
  loads_each loads (before ++ line :: after) = Raise e.
Proof.
  induction before as [|b r IH]; intros H E; cbn [app loads_each].
  - now rewrite E.
  - destruct (H b (or_introl eq_refl)) as (v & Ev). rewrite Ev. cbn [obind].
    rewrite IH; [reflexivity| |assumption].
    intros l Hl. apply H. now right.
Qed.

(** X22. [load_json] tries the whole text first and only when that fails
    decodes it line by line: if every line decodes, the result is the list
    of the decoded lines in order; otherwise the exception is that of the
    first line that fails, not the one of the whole text. A text that
    decodes as a whole is never split. *)
Theorem load_json_falls_back_to_lines loads data :
  (forall v, loads data = Return v -> load_json loads data = Return v) /\
  (forall e, loads data = Raise e ->
     (forall vs,
        Forall2 (fun line v => loads line = Return v) (splitlines data) vs ->
        load_json loads data = Return (PList vs)) /\
     (forall before line after e',
        splitlines data = (before ++ line :: after)%list ->
        (forall l, In l before -> exists v, loads l = Return v) ->
        loads line = Raise e' ->
        load_json loads data = Raise e')).
Proof.
  unfold load_json. split.
  - intros v E. now rewrite E.
  - intros e E. rewrite E. split.
    + intros vs F. now rewrite (loads_each_all loads _ vs F).
    + intros before line after e' S H L. rewrite S.
      now rewrite (loads_each_first_failure loads before line after e' H L).
Qed.

Lemma load_json_falls_back_to_lines_witness :
  load_json sample_loads "1" = Return (PInt 1) /\
  load_json sample_loads ("1" ++ chr LF ++ "2" ++ chr LF)
    = Return (PList [PInt 1; PInt 2]) /\
  load_json sample_loads ("1" ++ chr LF ++ "x" ++ chr LF ++ "[")
    = Raise (ValueError "Expecting value").
Proof.
  destruct (load_json_falls_back_to_lines sample_loads "1") as (A & _).
  destruct (load_json_falls_back_to_lines sample_loads
              ("1" ++ chr LF ++ "2" ++ chr LF)) as (_ & B).
  destruct (B (ValueError "Expecting value") eq_refl) as (B1 & _).
  split; [now apply A|]. split; [|reflexivity].
  apply B1. repeat constructor.
Defined.

Lemma splitlines_line t rest :
  no_linebreak t = true ->
  splitlines (t ++ String LF rest) = t :: splitlines rest.
Proof.
  unfold no_linebreak, str_forall.
  induction t as [|c t IH]; [reflexivity|].
  cbn [list_ascii_of_string forallb append]. intros H.
  apply andb_true_iff in H as [Hc Ht]. apply negb_true_iff in Hc.
  cbn [splitlines]. rewrite Hc. now rewrite (IH Ht).
Qed.

Lemma splitlines_single t :
  no_linebreak t = true -> t <> EmptyString -> splitlines t = [t].
Proof.
  unfold no_linebreak, str_forall.
  induction t as [|c t IH]; [congruence|].
  cbn [list_ascii_of_string forallb]. intros H _.
  apply andb_true_iff in H as [Hc Ht]. apply negb_true_iff in Hc.
  cbn [splitlines]. rewrite Hc.
  destruct t as [|c' t']; [reflexivity|].
  now rewrite (IH Ht) by discriminate.
Qed.

Lemma splitlines_join texts :
  forallb no_linebreak texts = true -> last_nonempty texts = true ->
  splitlines (join (chr LF) texts) = texts.
Proof.
  induction texts as [|t rest IH]; [reflexivity|].
  cbn [forallb]. intros H L. apply andb_true_iff in H as [Ht Hr].
  destruct rest as [|t' rest'].
  - cbn [join]. apply splitlines_single; [assumption|].
    cbn [last_nonempty] in L. apply negb_true_iff in L.
    now apply String.eqb_neq.
  - change (join (chr LF) (t :: t' :: rest'))
      with (t ++ String LF (join (chr LF) (t' :: rest'))).
    rewrite (splitlines_line t _ Ht). f_equal. now apply IH.
Qed.

(** X23. JSON lines are read back one document per line: a text made of
    documents that hold no line-boundary character (the last one not
    empty), joined by newlines, which does not decode as a whole, is decoded
    into the list of its documents in order, provided each of them
    decodes. *)
Theorem load_json_reads_json_lines loads texts vs e :
  forallb no_linebreak texts = true -> last_nonempty texts = true ->
  loads (join (chr LF) texts) = Raise e ->
  Forall2 (fun text v => loads text = Return v) texts vs ->
  load_json loads (join (chr LF) texts) = Return (PList vs).
Proof.
  intros N L E F. unfold load_json. rewrite E.
  rewrite (splitlines_join texts N L).
  now rewrite (loads_each_all loads texts vs F).
Qed.

Lemma load_json_reads_json_lines_witness :
  forallb no_linebreak ["1"; "2"; "1"] = true /\
  last_nonempty ["1"; "2"; "1"] = true /\
  load_json sample_loads (join (chr LF) ["1"; "2"; "1"])
  = Return (PList [PInt 1; PInt 2; PInt 1]).
Proof.
  split; [reflexivity|]. split; [reflexivity|].
  apply (load_json_reads_json_lines sample_loads ["1"; "2"; "1"]
           [PInt 1; PInt 2; PInt 1] (ValueError "Expecting value"));
    try reflexivity.
  repeat constructor.
Defined.
